(** * Harvard Artifacts Explorer: the ETL core of [1app.py]

    A shallow embedding of the fetch / transform / load pipeline:
    - Python values as decoded from JSON, with [dict.get], iteration and
      truthiness as the interpreter defines them;
    - [transform_records] as the accumulator loop it is;
    - [fetch_artifacts_by_classification] as a fuelled [while] loop over an
      endpoint given as a function from request parameters to responses;
    - the three [insert_*] loaders over a model of the sqlite3 store, with
      the connection's pending transaction made explicit. *)

From Stdlib Require Import ZArith QArith List String DecimalString Lia.
From stdpp Require Import gmap strings list fin_maps.

Close Scope Q_scope.
Open Scope Z_scope.

(** ** Exceptions and the error monad *)

Inductive exn : Type :=
| TypeError          (* iterating a value that is not iterable *)
| AttributeError     (* [.get] on a value that is not a dict *)
| JSONDecodeError    (* [resp.json()] on a body that is not JSON *)
| OverflowError      (* a Python int outside the 64-bit range bound to SQL *)
| BindError          (* sqlite3: parameter of an unsupported type *)
| IntegrityError     (* sqlite3: datatype mismatch on the rowid column *)
| DatabaseFull.      (* sqlite3: no unused rowid could be found *)

Inductive result (A : Type) : Type :=
| Ok (a : A)
| Raise (e : exn).

Arguments Ok {A} a.
Arguments Raise {A} e.

#[global] Instance result_ret : MRet result := fun _ a => Ok a.

#[global] Instance result_bind : MBind result := fun _ _ f m =>
  match m with
  | Ok a => f a
  | Raise e => Raise e
  end.

(** A [for] loop whose body may raise: the accumulator is threaded from left
    to right and the first exception ends the loop. *)
Fixpoint for_each {A S : Type} (body : S -> A -> result S) (s : S) (xs : list A)
  : result S :=
  match xs with
  | [] => Ok s
  | x :: xs' =>
      match body s x with
      | Ok s' => for_each body s' xs'
      | Raise e => Raise e
      end
  end.

(** ** Python values *)

(** What [json] decoding produces.  A dict keeps its insertion order, so it
    is an association list; a float is only ever copied, its carrier is a
    rational. *)
#[warnings="-register-all"]
Inductive value : Type :=
| VNone
| VBool (b : bool)
| VInt (z : Z)
| VFloat (q : Q)
| VStr (s : string)
| VList (l : list value)
| VDict (d : list (string * value)).

Abbreviation dict := (list (string * value)).

Fixpoint dict_lookup (d : dict) (k : string) : option value :=
  match d with
  | [] => None
  | (k', v) :: d' => if String.eqb k' k then Some v else dict_lookup d' k
  end.

(** [d.get(k, dflt)] *)
Definition get_default (d : dict) (k : string) (dflt : value) : value :=
  match dict_lookup d k with
  | Some v => v
  | None => dflt
  end.

(** [d.get(k)] *)
Definition get (d : dict) (k : string) : value := get_default d k VNone.

(** [v.get(k, dflt)] on a value not known to be a dict. *)
Definition py_get (v : value) (k : string) (dflt : value) : result value :=
  match v with
  | VDict d => Ok (get_default d k dflt)
  | _ => Raise AttributeError
  end.

Fixpoint chars (s : string) : list value :=
  match s with
  | EmptyString => []
  | String c s' => VStr (String c EmptyString) :: chars s'
  end.

(** The items a [for] loop or [list.extend] draws from a value. *)
Definition py_iter (v : value) : result (list value) :=
  match v with
  | VList l => Ok l
  | VStr s => Ok (chars s)
  | VDict d => Ok (map (fun kv => VStr (fst kv)) d)
  | VNone | VBool _ | VInt _ | VFloat _ => Raise TypeError
  end.

(** Truth value of a Python object, as [not x] tests it. *)
Definition truthy (v : value) : bool :=
  match v with
  | VNone => false
  | VBool b => b
  | VInt z => negb (z =? 0)
  | VFloat q => negb (Qnum q =? 0)
  | VStr s => negb (String.eqb s "")
  | VList l => match l with [] => false | _ => true end
  | VDict d => match d with [] => false | _ => true end
  end.

(** [l[:m]] *)
Definition py_slice_to {A : Type} (l : list A) (m : Z) : list A :=
  if m <? 0 then firstn (Z.to_nat (Z.of_nat (length l) + m)) l
  else firstn (Z.to_nat m) l.

(** ** Record Transformer: [transform_records] *)

Record transform_state : Type := {
  metadata_list : list dict;
  media_list : list dict;
  colors_list : list dict
}.

Definition metadata_row (rec : dict) : dict :=
  [ ("id", get rec "id");
    ("title", get rec "title");
    ("culture", get rec "culture");
    ("period", get rec "period");
    ("century", get rec "century");
    ("medium", get rec "medium");
    ("dimensions", get rec "dimensions");
    ("description", get rec "description");
    ("department", get rec "department");
    ("classification", get rec "classification");
    ("accessionyear", get rec "accessionyear");
    ("accessionmethod", get rec "accessionmethod") ].

Definition media_row (rec : dict) : dict :=
  [ ("objectid", get rec "id");
    ("imagecount", get rec "imagecount");
    ("mediacount", get rec "mediacount");
    ("colorcount", get rec "colorcount");
    ("rank", get rec "rank");
    ("datebegin", get rec "datebegin");
    ("dateend", get rec "dateend") ].

(** The dict literal of the inner loop: [c.get] raises when the entry [c]
    is not a dict. *)
Definition color_row (rec : dict) (c : value) : result dict :=
  color ← py_get c "color" VNone;
  spectrum ← py_get c "spectrum" VNone;
  hue ← py_get c "hue" VNone;
  percent ← py_get c "percent" VNone;
  css3 ← py_get c "css3" VNone;
  Ok [ ("objectid", get rec "id");
       ("color", color);
       ("spectrum", spectrum);
       ("hue", hue);
       ("percent", percent);
       ("css3", css3) ].

(** Body of [for rec in records]. *)
Definition transform_record (st : transform_state) (rec : dict)
  : result transform_state :=
  let metadata_list' := metadata_list st ++ [metadata_row rec] in
  let media_list' := media_list st ++ [media_row rec] in
  colors ← py_iter (get_default rec "colors" (VList []));
  colors_list' ←
    for_each (fun acc c => row ← color_row rec c; Ok (acc ++ [row]))
             (colors_list st) colors;
  Ok {| metadata_list := metadata_list';
        media_list := media_list';
        colors_list := colors_list' |}.

Definition transform_records (records : list dict)
  : result (list dict * list dict * list dict) :=
  st ← for_each transform_record
        {| metadata_list := []; media_list := []; colors_list := [] |}
        records;
  Ok (metadata_list st, media_list st, colors_list st).

(** ** Remote Fetcher: [fetch_artifacts_by_classification] *)

Definition API_KEY : string := "0ebcef01-70c7-4fc7-ab93-24a406b4fade".

(** The [params] dict of one page request. *)
Record request : Type := {
  apikey : string;
  classification : string;
  size : Z;
  page : Z;
  hasimage : Z
}.

(** What the loop reads of a response: [resp.status_code] and the body that
    [resp.json()] decodes ([None] when the body is not JSON). *)
Record response : Type := {
  status_code : Z;
  body : option value
}.

(** The remote endpoint: [requests.get(BASE_URL, params=params)], which
    always answers (a request that raises instead is not modelled). *)
Definition endpoint : Type := request -> response.

Definition json (resp : response) : result value :=
  match body resp with
  | Some v => Ok v
  | None => Raise JSONDecodeError
  end.

(** The local variables of the loop, together with what the call did to the
    outside: the page requests issued, in order, and the status codes passed
    to [st.error]. *)
Record fetch_state : Type := {
  records : list value;
  cur_page : Z;
  requests_sent : list request;
  st_errors : list Z
}.

(** [data.get('records', [])], as [records.extend] consumes it. *)
Definition page_records (data : value) : result (list value) :=
  rs ← py_get data "records" (VList []);
  py_iter rs.

(** [data.get('info', {}).get('next')] *)
Definition page_next (data : value) : result value :=
  info ← py_get data "info" (VDict []);
  py_get info "next" VNone.

(** The [params] dict built at the top of the loop body. *)
Definition page_params (cls : string) (sz p : Z) : request :=
  {| apikey := API_KEY; classification := cls; size := sz; page := p;
     hasimage := 1 |}.

(** The [while] loop.  [None] means the fuel ran out before the loop left;
    otherwise the final state comes with [Ok tt] when the loop left through
    its condition or a [break], and with [Raise e] when an exception escaped
    the body. *)
Fixpoint fetch_loop (fuel : nat) (api : endpoint) (cls : string)
    (sz max_records : Z) (s : fetch_state) : option (fetch_state * result unit) :=
  match fuel with
  | O => None
  | S fuel' =>
      if Z.of_nat (length (records s)) <? max_records then
        let params := page_params cls sz (cur_page s) in
        let resp := api params in
        let s1 := {| records := records s; cur_page := cur_page s;
                     requests_sent := requests_sent s ++ [params];
                     st_errors := st_errors s |} in
        if negb (status_code resp =? 200) then
          Some ({| records := records s1; cur_page := cur_page s1;
                   requests_sent := requests_sent s1;
                   st_errors := st_errors s1 ++ [status_code resp] |}, Ok tt)
        else
          match json resp with
          | Raise e => Some (s1, Raise e)
          | Ok data =>
              match page_records data with
              | Raise e => Some (s1, Raise e)
              | Ok new =>
                  let s2 := {| records := records s1 ++ new;
                               cur_page := cur_page s1;
                               requests_sent := requests_sent s1;
                               st_errors := st_errors s1 |} in
                  match page_next data with
                  | Raise e => Some (s2, Raise e)
                  | Ok next =>
                      if negb (truthy next) then Some (s2, Ok tt)
                      else
                        fetch_loop fuel' api cls sz max_records
                          {| records := records s2;
                             cur_page := cur_page s2 + 1;
                             requests_sent := requests_sent s2;
                             st_errors := st_errors s2 |}
                  end
              end
          end
      else Some (s, Ok tt)
  end.

Definition fetch_init : fetch_state :=
  {| records := []; cur_page := 1; requests_sent := []; st_errors := [] |}.

(** What one call leaves behind: the returned list or the exception, the
    page requests issued, and the diagnostics shown. *)
Record fetch_outcome : Type := {
  returned : result (list value);
  issued : list request;
  diagnostics : list Z
}.

Definition fetch_artifacts_by_classification (fuel : nat) (api : endpoint)
    (cls : string) (sz max_records : Z) : option fetch_outcome :=
  match fetch_loop fuel api cls sz max_records fetch_init with
  | None => None
  | Some (s, r) =>
      Some {| returned :=
                match r with
                | Ok _ => Ok (py_slice_to (records s) max_records)
                | Raise e => Raise e
                end;
              issued := requests_sent s;
              diagnostics := st_errors s |}
  end.

(** ** The store: sqlite3 as the loaders use it *)

(** Storage classes of SQLite (no BLOB: nothing decoded from JSON is bytes). *)
Inductive sqlval : Type :=
| SNull
| SInteger (z : Z)
| SReal (q : Q)
| SText (s : string).

Inductive affinity : Type := AffInteger | AffText | AffReal.

Record column : Type := {
  col_name : string;
  col_affinity : affinity;
  col_primary_key : bool
}.

(** The three [CREATE TABLE IF NOT EXISTS] statements of [create_tables].
    Only [artifact_metadata.id] carries a key; the [FOREIGN KEY] clauses are
    declarations that sqlite3 does not enforce by default. *)
Definition artifact_metadata_columns : list column :=
  [ {| col_name := "id"; col_affinity := AffInteger; col_primary_key := true |};
    {| col_name := "title"; col_affinity := AffText; col_primary_key := false |};
    {| col_name := "culture"; col_affinity := AffText; col_primary_key := false |};
    {| col_name := "period"; col_affinity := AffText; col_primary_key := false |};
    {| col_name := "century"; col_affinity := AffText; col_primary_key := false |};
    {| col_name := "medium"; col_affinity := AffText; col_primary_key := false |};
    {| col_name := "dimensions"; col_affinity := AffText; col_primary_key := false |};
    {| col_name := "description"; col_affinity := AffText; col_primary_key := false |};
    {| col_name := "department"; col_affinity := AffText; col_primary_key := false |};
    {| col_name := "classification"; col_affinity := AffText; col_primary_key := false |};
    {| col_name := "accessionyear"; col_affinity := AffInteger; col_primary_key := false |};
    {| col_name := "accessionmethod"; col_affinity := AffText; col_primary_key := false |} ].

Definition artifact_media_columns : list column :=
  [ {| col_name := "objectid"; col_affinity := AffInteger; col_primary_key := false |};
    {| col_name := "imagecount"; col_affinity := AffInteger; col_primary_key := false |};
    {| col_name := "mediacount"; col_affinity := AffInteger; col_primary_key := false |};
    {| col_name := "colorcount"; col_affinity := AffInteger; col_primary_key := false |};
    {| col_name := "rank"; col_affinity := AffInteger; col_primary_key := false |};
    {| col_name := "datebegin"; col_affinity := AffInteger; col_primary_key := false |};
    {| col_name := "dateend"; col_affinity := AffInteger; col_primary_key := false |} ].

Definition artifact_colors_columns : list column :=
  [ {| col_name := "objectid"; col_affinity := AffInteger; col_primary_key := false |};
    {| col_name := "color"; col_affinity := AffText; col_primary_key := false |};
    {| col_name := "spectrum"; col_affinity := AffText; col_primary_key := false |};
    {| col_name := "hue"; col_affinity := AffText; col_primary_key := false |};
    {| col_name := "percent"; col_affinity := AffReal; col_primary_key := false |};
    {| col_name := "css3"; col_affinity := AffText; col_primary_key := false |} ].

(** The database file.  [artifact_metadata] is keyed by its
    [INTEGER PRIMARY KEY] (the rowid) and holds the eleven other columns;
    the two keyless tables are the rows in rowid order, which is insertion
    order since nothing is ever deleted. *)
Record store : Type := {
  artifact_metadata : gmap Z (list sqlval);
  artifact_media : list (list sqlval);
  artifact_colors : list (list sqlval)
}.

(** What [create_tables] leaves when the file did not exist. *)
Definition empty_store : store :=
  {| artifact_metadata := ∅; artifact_media := []; artifact_colors := [] |}.

(** The parts of the engine that are not written out here: the conversion
    SQLite applies to a value whose storage class differs from the affinity
    of its column, and the rowid it picks at random once the largest one is
    in use. *)
Record engine : Type := {
  convert : affinity -> sqlval -> sqlval;
  random_rowid : list Z -> option Z
}.

Definition in_int64 (z : Z) : bool :=
  (- 2 ^ 63 <=? z) && (z <? 2 ^ 63).

(** Binding one Python object to a [?] placeholder. *)
Definition bind_param (v : value) : result sqlval :=
  match v with
  | VNone => Ok SNull
  | VBool b => Ok (SInteger (if b then 1 else 0))
  | VInt z => if in_int64 z then Ok (SInteger z) else Raise OverflowError
  | VFloat q => Ok (SReal q)
  | VStr s => Ok (SText s)
  | VList _ | VDict _ => Raise BindError
  end.

Fixpoint bind_params (vs : list value) : result (list sqlval) :=
  match vs with
  | [] => Ok []
  | v :: vs' =>
      p ← bind_param v;
      ps ← bind_params vs';
      Ok (p :: ps)
  end.

Definition apply_affinity (eng : engine) (a : affinity) (v : sqlval) : sqlval :=
  match a, v with
  | _, SNull => SNull
  | AffInteger, SInteger _ => v
  | AffText, SText _ => v
  | AffReal, SReal _ => v
  | _, _ => convert eng a v
  end.

Fixpoint store_row (eng : engine) (cols : list column) (ps : list sqlval)
  : list sqlval :=
  match cols, ps with
  | c :: cols', p :: ps' =>
      apply_affinity eng (col_affinity c) p :: store_row eng cols' ps'
  | _, _ => []
  end.

Definition rowids (tbl : gmap Z (list sqlval)) : list Z :=
  map fst (map_to_list tbl).

Definition max_rowid : Z := 2 ^ 63 - 1.

(** The rowid given to a row inserted with a NULL key: 1 in an empty table,
    else one more than the largest in use, else a random unused one. *)
Definition new_rowid (eng : engine) (tbl : gmap Z (list sqlval)) : result Z :=
  match rowids tbl with
  | [] => Ok 1
  | k :: ks =>
      let m := fold_right Z.max k ks in
      if m <? max_rowid then Ok (m + 1)
      else
        match random_rowid eng (k :: ks) with
        | Some n =>
            match tbl !! n with
            | None => Ok n
            | Some _ => Raise DatabaseFull
            end
        | None => Raise DatabaseFull
        end
  end.

(** The key of a row about to enter [artifact_metadata]. *)
Definition rowid_of (eng : engine) (tbl : gmap Z (list sqlval)) (v : sqlval)
  : result Z :=
  match v with
  | SInteger n => Ok n
  | SNull => new_rowid eng tbl
  | _ =>
      match convert eng AffInteger v with
      | SInteger n => Ok n
      | _ => Raise IntegrityError
      end
  end.

(** *** The three [INSERT OR IGNORE] statements *)

Definition metadata_params (r : dict) : list value :=
  [ get r "id"; get r "title"; get r "culture"; get r "period";
    get r "century"; get r "medium"; get r "dimensions"; get r "description";
    get r "department"; get r "classification"; get r "accessionyear";
    get r "accessionmethod" ].

Definition media_params (r : dict) : list value :=
  [ get r "objectid"; get r "imagecount"; get r "mediacount";
    get r "colorcount"; get r "rank"; get r "datebegin"; get r "dateend" ].

Definition colors_params (r : dict) : list value :=
  [ get r "objectid"; get r "color"; get r "spectrum"; get r "hue";
    get r "percent"; get r "css3" ].

(** [INSERT OR IGNORE INTO artifact_metadata ...]: a row whose key is
    already in the table is skipped, the stored row is left as it is. *)
Definition exec_insert_metadata (eng : engine) (r : dict) (db : store)
  : result store :=
  ps ← bind_params (metadata_params r);
  match ps with
  | [] => Ok db
  | key :: rest =>
      rowid ← rowid_of eng (artifact_metadata db) key;
      match artifact_metadata db !! rowid with
      | Some _ => Ok db
      | None =>
          Ok {| artifact_metadata :=
                  <[rowid := store_row eng (tail artifact_metadata_columns) rest]>
                    (artifact_metadata db);
                artifact_media := artifact_media db;
                artifact_colors := artifact_colors db |}
      end
  end.

(** [INSERT OR IGNORE INTO artifact_media ...]: the table declares no
    constraint, so there is never a conflict to ignore. *)
Definition exec_insert_media (eng : engine) (r : dict) (db : store)
  : result store :=
  ps ← bind_params (media_params r);
  Ok {| artifact_metadata := artifact_metadata db;
        artifact_media :=
          artifact_media db ++ [store_row eng artifact_media_columns ps];
        artifact_colors := artifact_colors db |}.

Definition exec_insert_colors (eng : engine) (r : dict) (db : store)
  : result store :=
  ps ← bind_params (colors_params r);
  Ok {| artifact_metadata := artifact_metadata db;
        artifact_media := artifact_media db;
        artifact_colors :=
          artifact_colors db ++ [store_row eng artifact_colors_columns ps] |}.

(** *** Connections and transactions *)

(** A connection sees the file as committed ([on_disk]) and as changed by
    its own pending transaction ([in_txn]). *)
Record connection : Type := {
  on_disk : store;
  in_txn : store
}.

Definition get_connection (db : store) : connection :=
  {| on_disk := db; in_txn := db |}.

Definition commit (conn : connection) : connection :=
  {| on_disk := in_txn conn; in_txn := in_txn conn |}.

Definition rollback (conn : connection) : connection :=
  {| on_disk := on_disk conn; in_txn := on_disk conn |}.

(** [cur.execute(stmt, params)]: a statement that fails changes nothing,
    one that succeeds joins the pending transaction. *)
Definition execute (stmt : store -> result store) (conn : connection)
  : connection * result unit :=
  match stmt (in_txn conn) with
  | Ok db' => ({| on_disk := on_disk conn; in_txn := db' |}, Ok tt)
  | Raise e => (conn, Raise e)
  end.

(** [for r in records: cur.execute(...)] *)
Fixpoint execute_each (stmt : dict -> store -> result store)
    (rows : list dict) (conn : connection) : connection * result unit :=
  match rows with
  | [] => (conn, Ok tt)
  | r :: rows' =>
      match execute (stmt r) conn with
      | (conn', Ok _) => execute_each stmt rows' conn'
      | (conn', Raise e) => (conn', Raise e)
      end
  end.

(** [with get_connection() as conn: body]: leaving the block commits the
    pending transaction when the body finished and rolls it back when an
    exception escaped, which is then raised again.  The result is the file
    as the call leaves it. *)
Definition with_connection (body : connection -> connection * result unit)
    (db : store) : store * result unit :=
  match body (get_connection db) with
  | (conn, Ok _) => (on_disk (commit conn), Ok tt)
  | (conn, Raise e) => (on_disk (rollback conn), Raise e)
  end.

(** The body shared by the three loaders: the loop, then [conn.commit()]. *)
Definition insert_body (stmt : dict -> store -> result store)
    (rows : list dict) (conn : connection) : connection * result unit :=
  match execute_each stmt rows conn with
  | (conn', Ok _) => (commit conn', Ok tt)
  | (conn', Raise e) => (conn', Raise e)
  end.

Definition insert_metadata (eng : engine) (rows : list dict) (db : store)
  : store * result unit :=
  with_connection (insert_body (exec_insert_metadata eng) rows) db.

Definition insert_media (eng : engine) (rows : list dict) (db : store)
  : store * result unit :=
  with_connection (insert_body (exec_insert_media eng) rows) db.

Definition insert_colors (eng : engine) (rows : list dict) (db : store)
  : store * result unit :=
  with_connection (insert_body (exec_insert_colors eng) rows) db.

(** *** Reading back *)

(** The queries the properties read the store with. *)
Inductive query : Type :=
| SelectMetadataById (n : Z)       (* SELECT * FROM artifact_metadata WHERE id = n *)
| SelectAllMedia                   (* SELECT * FROM artifact_media *)
| SelectAllColors.                 (* SELECT * FROM artifact_colors *)

(** [run_query]: the rows of the result, each a list of column values. *)
Definition run_query (q : query) (db : store) : list (list sqlval) :=
  match q with
  | SelectMetadataById n =>
      match artifact_metadata db !! n with
      | Some rest => [SInteger n :: rest]
      | None => []
      end
  | SelectAllMedia => artifact_media db
  | SelectAllColors => artifact_colors db
  end.

(** The Python object a fetched column value becomes. *)
Definition sql_to_py (v : sqlval) : value :=
  match v with
  | SNull => VNone
  | SInteger z => VInt z
  | SReal q => VFloat q
  | SText s => VStr s
  end.

(** ** Well-formed inputs *)

(** A raw record whose [colors] field, when present, is a list of objects. *)
Definition is_dict (v : value) : bool :=
  match v with
  | VDict _ => true
  | _ => false
  end.

Definition colors_of (rec : dict) : list value :=
  match get_default rec "colors" (VList []) with
  | VList l => l
  | _ => []
  end.

Definition colors_well_formed (rec : dict) : bool :=
  match get_default rec "colors" (VList []) with
  | VList l => forallb is_dict l
  | _ => false
  end.

(** A Python object of the storage class its column declares, or [None]. *)
Definition fits (a : affinity) (v : value) : bool :=
  match v, a with
  | VNone, _ => true
  | VInt z, AffInteger => in_int64 z
  | VStr _, AffText => true
  | VFloat _, AffReal => true
  | _, _ => false
  end.

Fixpoint all_fit (cols : list column) (vs : list value) : bool :=
  match cols, vs with
  | [], [] => true
  | c :: cols', v :: vs' => fits (col_affinity c) v && all_fit cols' vs'
  | _, _ => false
  end.

(** A metadata row as the data model has it: an integer [id], every other
    field absent, null or of the type of its column. *)
Definition metadata_row_typed (r : dict) : bool :=
  match get r "id" with
  | VInt _ => all_fit artifact_metadata_columns (metadata_params r)
  | _ => false
  end.

Definition bindable (v : value) : bool :=
  match bind_param v with
  | Ok _ => true
  | Raise _ => false
  end.

(** The rows the inner loop appends for the entries [cs] of one record. *)
Definition color_rows (rec : dict) (cs : list value) (rows : list dict) : Prop :=
  Forall2 (fun c row => color_row rec c = Ok row) cs rows.

(** The rows one record contributes to [colors_list]. *)
Definition record_colors (rec : dict) (rows : list dict) : Prop :=
  exists cs, py_iter (get_default rec "colors" (VList [])) = Ok cs
             /\ color_rows rec cs rows.

(** ** Concrete inputs *)

(** A record with no field at all, one with an empty color list, and the
    record of the scenario: id 42 with two color entries. *)
Definition record_42 : dict :=
  [ ("id", VInt 42); ("title", VStr "Amphora");
    ("colors", VList [ VDict [("color", VStr "Red"); ("percent", VFloat (1 # 2))];
                       VDict [("color", VStr "Blue"); ("hue", VStr "Blue")] ]) ].

Definition sample_records : list dict :=
  [ []; [("id", VInt 7); ("colors", VList [])]; record_42 ].

(** The color rows [record_42] transforms into. *)
Definition record_42_colors : list dict :=
  [ [ ("objectid", VInt 42); ("color", VStr "Red"); ("spectrum", VNone);
      ("hue", VNone); ("percent", VFloat (1 # 2)); ("css3", VNone) ];
    [ ("objectid", VInt 42); ("color", VStr "Blue"); ("spectrum", VNone);
      ("hue", VStr "Blue"); ("percent", VNone); ("css3", VNone) ] ].

(** ** Page responses, as the loop tells them apart *)

(** A page the loop reads [new] from and goes on after: status 200, a body
    whose records are [new] and whose next-page indicator is truthy. *)
Definition continuing_page (resp : response) (new : list value) : Prop :=
  status_code resp = 200
  /\ exists data next,
       json resp = Ok data /\ page_records data = Ok new
       /\ page_next data = Ok next /\ truthy next = true.

(** A page the loop reads [new] from and stops after: no next-page
    indicator (absent, null or otherwise falsy). *)
Definition last_page (resp : response) (new : list value) : Prop :=
  status_code resp = 200
  /\ exists data next,
       json resp = Ok data /\ page_records data = Ok new
       /\ page_next data = Ok next /\ truthy next = false.

(** From page [p] on, the endpoint answers with continuing pages whose
    records are the elements of [pages], in order. *)
Inductive continues (api : endpoint) (cls : string) (sz : Z)
  : Z -> list (list value) -> Prop :=
| continues_nil p : continues api cls sz p []
| continues_cons p new rest :
    continuing_page (api (page_params cls sz p)) new ->
    continues api cls sz (p + 1) rest ->
    continues api cls sz p (new :: rest).

(** The whole collection the endpoint can deliver, page by page from page
    [p]: continuing pages and then a last one. *)
Definition serves (api : endpoint) (cls : string) (sz : Z) (p : Z)
    (pages : list (list value)) : Prop :=
  exists init final,
    pages = init ++ [final]
    /\ continues api cls sz p init
    /\ last_page (api (page_params cls sz (p + Z.of_nat (length init)))) final.

(** The requests for the [n] pages from page [p] on. *)
Fixpoint page_requests (cls : string) (sz p : Z) (n : nat) : list request :=
  match n with
  | O => []
  | S n' => page_params cls sz p :: page_requests cls sz (p + 1) n'
  end.

(** The loop state after reading the continuing pages [pages]. *)
Definition advance (cls : string) (sz : Z) (s : fetch_state)
    (pages : list (list value)) : fetch_state :=
  {| records := records s ++ concat pages;
     cur_page := cur_page s + Z.of_nat (length pages);
     requests_sent :=
       requests_sent s ++ page_requests cls sz (cur_page s) (length pages);
     st_errors := st_errors s |}.

(** An endpoint that always answers 200 with no records and a next-page
    indicator. *)
Definition endless_api : endpoint := fun _ =>
  {| status_code := 200;
     body := Some (VDict [ ("records", VList []);
                           ("info", VDict [("next", VStr "page")]) ]) |}.

(** A response body with the given records and next-page indicator. *)
Definition page_body (recs : list value) (next : option string) : value :=
  VDict [ ("records", VList recs);
          ("info", match next with
                   | Some url => VDict [("next", VStr url)]
                   | None => VDict []
                   end) ].

Definition coin (n : Z) : value := VDict [("id", VInt n)].

(** A collection of five records on three pages of size two. *)
Definition coins_api : endpoint := fun req =>
  if page req =? 1 then
    {| status_code := 200;
       body := Some (page_body [coin 1; coin 2] (Some "page=2")) |}
  else if page req =? 2 then
    {| status_code := 200;
       body := Some (page_body [coin 3; coin 4] (Some "page=3")) |}
  else if page req =? 3 then
    {| status_code := 200; body := Some (page_body [coin 5] None) |}
  else {| status_code := 404; body := None |}.

(** The same endpoint failing on its third page. *)
Definition flaky_api : endpoint := fun req =>
  if page req =? 3 then {| status_code := 503; body := None |}
  else coins_api req.

(** An engine that leaves a value of the wrong storage class as it is and
    never finds a random rowid. *)
Definition plain_engine : engine :=
  {| convert := fun _ v => v; random_rowid := fun _ => None |}.

(** The statements of a loader run one after the other, outside any
    connection: the store they lead to, or the first error. *)
Definition run_statements (stmt : dict -> store -> result store)
    (rows : list dict) (db : store) : result store :=
  for_each (fun db r => stmt r db) db rows.

(** A loader that commits the effect of all its statements or, when one of
    them fails, of none: the error of the failing row reaches the caller,
    the rows before it are rolled back and the rows after it are not
    attempted. *)
Definition all_or_nothing (stmt : dict -> store -> result store)
    (loader : list dict -> store -> store * result unit) : Prop :=
  (forall rows db db',
      run_statements stmt rows db = Ok db' -> loader rows db = (db', Ok tt))
  /\ (forall pre r post db mid e,
         loader pre db = (mid, Ok tt) ->
         stmt r mid = Raise e ->
         loader (pre ++ r :: post) db = (db, Raise e))
  /\ (forall rows db db' e, loader rows db = (db', Raise e) -> db' = db).

(** Rows and stores to try the loaders on. *)
Definition bowl_row : dict := [("id", VInt 1); ("title", VStr "Bowl")].

Definition malformed_row : dict := [("id", VInt 2); ("title", VList [])].

Definition jug_row : dict :=
  [ ("id", VInt 3); ("title", VStr "Jug"); ("culture", VStr "Greek");
    ("period", VNone); ("century", VStr "5th century BCE");
    ("medium", VStr "Terracotta"); ("dimensions", VStr "12 cm");
    ("description", VNone); ("department", VStr "Ancient Art");
    ("classification", VStr "Vessels"); ("accessionyear", VInt 1925);
    ("accessionmethod", VStr "Gift") ].

Definition bowl_store : store :=
  {| artifact_metadata :=
       {[ 1 := [ SText "Bowl"; SNull; SNull; SNull; SNull; SNull; SNull; SNull;
                 SNull; SNull; SNull ] ]};
     artifact_media := [];
     artifact_colors := [] |}.

Definition bowl_media : dict := [("objectid", VInt 1); ("imagecount", VInt 2)].

Definition bowl_color : dict :=
  [("objectid", VInt 1); ("color", VStr "Red"); ("percent", VFloat (1 # 4))].

(** The store with [rows] appended to one of the keyless tables. *)
Definition add_media (db : store) (rows : list (list sqlval)) : store :=
  {| artifact_metadata := artifact_metadata db;
     artifact_media := artifact_media db ++ rows;
     artifact_colors := artifact_colors db |}.

Definition add_colors (db : store) (rows : list (list sqlval)) : store :=
  {| artifact_metadata := artifact_metadata db;
     artifact_media := artifact_media db;
     artifact_colors := artifact_colors db ++ rows |}.

(** The store with a metadata row put under a key. *)
Definition put_metadata (db : store) (k : Z) (rest : list sqlval) : store :=
  {| artifact_metadata := <[k := rest]> (artifact_metadata db);
     artifact_media := artifact_media db;
     artifact_colors := artifact_colors db |}.

(** A page answered with status 200 that the loop body cannot read: the body
    is not JSON, or is not an object, or its [records] cannot be iterated,
    or its [info] is not an object.  [e] is the exception that escapes. *)
Definition malformed_page (resp : response) (e : exn) : Prop :=
  status_code resp = 200
  /\ (json resp = Raise e
      \/ exists data,
           json resp = Ok data
           /\ (page_records data = Raise e
               \/ exists new,
                    page_records data = Ok new /\ page_next data = Raise e)).

(** An endpoint whose second page has a null [records] field. *)
Definition broken_api : endpoint := fun req =>
  if page req =? 2 then
    {| status_code := 200;
       body := Some (VDict [("records", VNone); ("info", VDict [])]) |}
  else coins_api req.

(** ** The transformer on what the fetcher returns *)

(** The loop body on a record not known to be an object: [rec.get] raises
    on anything but a dict. *)
Definition transform_raw_record (st : transform_state) (v : value)
  : result transform_state :=
  match v with
  | VDict rec => transform_record st rec
  | _ => Raise AttributeError
  end.

(** [transform_records] on a list of decoded JSON values. *)
Definition transform_raw (records : list value)
  : result (list dict * list dict * list dict) :=
  st ← for_each transform_raw_record
        {| metadata_list := []; media_list := []; colors_list := [] |}
        records;
  Ok (metadata_list st, media_list st, colors_list st).

(** The exception one record makes the loop body raise, if any: its colors
    cannot be iterated, or one of the items is not an object. *)
Definition record_error (rec : dict) : option exn :=
  match py_iter (get_default rec "colors" (VList [])) with
  | Raise e => Some e
  | Ok cs => if forallb is_dict cs then None else Some AttributeError
  end.

Fixpoint first_error (recs : list dict) : option exn :=
  match recs with
  | [] => None
  | rec :: recs' =>
      match record_error rec with
      | Some e => Some e
      | None => first_error recs'
      end
  end.

(** The three lists of one state followed by those of another. *)
Definition state_app (st d : transform_state) : transform_state :=
  {| metadata_list := metadata_list st ++ metadata_list d;
     media_list := media_list st ++ media_list d;
     colors_list := colors_list st ++ colors_list d |}.

Definition empty_state : transform_state :=
  {| metadata_list := []; media_list := []; colors_list := [] |}.

(** ** Rows as the loaders store them *)

(** [row] is what a statement stores for the row dictionary [r]: its
    parameters, bound and given the affinity of their columns. *)
Definition stored_as (eng : engine) (cols : list column)
    (params : dict -> list value) (r : dict) (row : list sqlval) : Prop :=
  exists ps, bind_params (params r) = Ok ps /\ row = store_row eng cols ps.

Definition has_int_id (r : dict) : bool :=
  match get r "id" with
  | VInt _ => true
  | _ => false
  end.

(** Two rows for the same artifact, and a row without id. *)
Definition bowl_row_again : dict := [("id", VInt 1); ("title", VStr "Another bowl")].

Definition anonymous_row : dict := [("title", VStr "No id")].

(** ** The "Collect Data from API" button *)

(** [insert_metadata(metadata); insert_media(media); insert_colors(colors)]:
    three calls, each with its own connection; an exception ends the
    sequence. *)
Definition load_all (eng : engine) (metadata media colors : list dict)
    (db : store) : store * result unit :=
  match insert_metadata eng metadata db with
  | (db1, Raise e) => (db1, Raise e)
  | (db1, Ok _) =>
      match insert_media eng media db1 with
      | (db2, Raise e) => (db2, Raise e)
      | (db2, Ok _) => insert_colors eng colors db2
      end
  end.

(** The messages of the sidebar. *)
Inductive sidebar_message : Type :=
| Info_fetching (cls : string)       (* Fetching up to 2500 records for ... *)
| Success_fetched (n : nat)          (* Fetched n records. *)
| Info_inserting                     (* Inserting records into the database... *)
| Success_completed.                 (* Data insertion completed! *)

Record collect_outcome : Type := {
  final_store : store;
  sidebar : list sidebar_message;
  api_errors : list Z;
  ended : result unit
}.

(** The body of [if st.sidebar.button("Collect Data from API")]. *)
Definition collect_data (fuel : nat) (api : endpoint) (eng : engine)
    (cls : string) (db : store) : option collect_outcome :=
  match fetch_artifacts_by_classification fuel api cls 100 2500 with
  | None => None
  | Some fetched =>
      let shown := [Info_fetching cls] in
      match returned fetched with
      | Raise e =>
          Some {| final_store := db; sidebar := shown;
                  api_errors := diagnostics fetched; ended := Raise e |}
      | Ok raw_records =>
          let shown := shown ++ [Success_fetched (length raw_records)] in
          match transform_raw raw_records with
          | Raise e =>
              Some {| final_store := db; sidebar := shown;
                      api_errors := diagnostics fetched; ended := Raise e |}
          | Ok (metadata, media, colors) =>
              let shown := shown ++ [Info_inserting] in
              match load_all eng metadata media colors db with
              | (db', Raise e) =>
                  Some {| final_store := db'; sidebar := shown;
                          api_errors := diagnostics fetched; ended := Raise e |}
              | (db', Ok _) =>
                  Some {| final_store := db';
                          sidebar := shown ++ [Success_completed];
                          api_errors := diagnostics fetched; ended := Ok tt |}
              end
          end
      end
  end.

(** A stored media or color row that points to a stored metadata row. *)
Definition references (db : store) (row : list sqlval) : Prop :=
  exists n, head row = Some (SInteger n)
            /\ is_Some (artifact_metadata db !! n).

(** An endpoint serving one page with [record_42]. *)
Definition one_record_api : endpoint := fun req =>
  if page req =? 1 then
    {| status_code := 200; body := Some (page_body [VDict record_42] None) |}
  else {| status_code := 404; body := None |}.

(** A media row with a field that cannot be bound. *)
Definition malformed_media : dict :=
  [("objectid", VInt 1); ("imagecount", VDict [])].

(** An endpoint answering its second page with status 200 and an object
    that has neither [records] nor [info]. *)
Definition error_object_api : endpoint := fun req =>
  if page req =? 2 then
    {| status_code := 200;
       body := Some (VDict [("error", VStr "Too many requests")]) |}
  else coins_api req.

(** ** Values of another type than their column *)

(** The decimal text of an integer, as SQLite writes it. *)
Definition decimal_of_Z (z : Z) : string :=
  NilZero.string_of_int (Z.to_int z).

(** What SQLite does to an integer put in a column of TEXT affinity: it
    stores its decimal text. *)
Definition stores_integer_as_text (eng : engine) : Prop :=
  forall z, convert eng AffText (SInteger z) = SText (decimal_of_Z z).

(** An engine that converts just that and leaves any other value of the
    wrong storage class as it is. *)
Definition integer_text_engine : engine :=
  {| convert := fun a v =>
       match a, v with
       | AffText, SInteger z => SText (decimal_of_Z z)
       | _, _ => v
       end;
     random_rowid := fun _ => None |}.

(** A metadata row whose title is a number, and the store it is loaded
    into from the empty one. *)
Definition number_title_row : dict := [("id", VInt 4); ("title", VInt 5)].

Definition number_title_store : store :=
  put_metadata empty_store 4
    [ SText "5"; SNull; SNull; SNull; SNull; SNull; SNull; SNull; SNull;
      SNull; SNull ].

(** * Properties *)

Ltac unfold_result :=
  unfold mbind, result_bind, mret, result_ret in *.

(** ** The error-aware loop *)

Lemma for_each_app {A S : Type} (body : S -> A -> result S) (s : S)
    (xs ys : list A) :
  for_each body s (xs ++ ys) =
  match for_each body s xs with
  | Ok s' => for_each body s' ys
  | Raise e => Raise e
  end.
Proof.
  revert s. induction xs as [|x xs IH]; intros s; simpl.
  - reflexivity.
  - destruct (body s x) as [s'|e]; [apply IH | reflexivity].
Qed.

(** ** Record Transformer *)

Lemma color_loop_inv (rec : dict) (cs : list value) (acc acc' : list dict) :
  for_each (fun acc c => row ← color_row rec c; Ok (acc ++ [row])) acc cs
    = Ok acc' ->
  exists rows, acc' = acc ++ rows /\ color_rows rec cs rows.
Proof.
  revert acc. induction cs as [|c cs IH]; intros acc H; simpl in H.
  - exists []. split; [inversion H; now rewrite app_nil_r | constructor].
  - unfold_result. destruct (color_row rec c) as [row|e] eqn:Hc; [|discriminate].
    apply IH in H as (rows & -> & Hrows).
    exists (row :: rows). split.
    + now rewrite <- app_assoc.
    + now constructor.
Qed.

Lemma color_loop_total (rec : dict) (cs : list value) (acc : list dict) :
  forallb is_dict cs = true ->
  exists acc',
    for_each (fun acc c => row ← color_row rec c; Ok (acc ++ [row])) acc cs
      = Ok acc'.
Proof.
  revert acc. induction cs as [|c cs IH]; intros acc H; simpl in *.
  - now exists acc.
  - apply andb_prop in H as [Hc Hcs].
    destruct c; try discriminate. simpl. now apply IH.
Qed.

Lemma transform_loop_inv (recs : list dict) (st st' : transform_state) :
  for_each transform_record st recs = Ok st' ->
  metadata_list st' = metadata_list st ++ map metadata_row recs
  /\ media_list st' = media_list st ++ map media_row recs
  /\ exists chunks,
       colors_list st' = colors_list st ++ concat chunks
       /\ Forall2 record_colors recs chunks.
Proof.
  revert st. induction recs as [|rec recs IH]; intros st H; simpl in H.
  - inversion H; subst. rewrite !app_nil_r. repeat split.
    exists []. split; [now rewrite app_nil_r | constructor].
  - destruct (transform_record st rec) as [st1|e] eqn:Hrec; [|discriminate].
    apply IH in H as (Hmd & Hme & chunks & Hco & Hchunks).
    unfold transform_record in Hrec. unfold_result.
    destruct (py_iter _) as [cs|e] eqn:Hiter; [|discriminate].
    destruct (for_each _ _ cs) as [acc'|e] eqn:Hloop; [|discriminate].
    inversion Hrec; subst st1; clear Hrec. simpl in *.
    apply color_loop_inv in Hloop as (rows & -> & Hrows).
    rewrite Hmd, Hme, Hco, <- !app_assoc. repeat split.
    exists (rows :: chunks). split; [reflexivity|].
    constructor; [|assumption]. now exists cs.
Qed.

Lemma transform_loop_total (recs : list dict) (st : transform_state) :
  forallb colors_well_formed recs = true ->
  exists st', for_each transform_record st recs = Ok st'.
Proof.
  revert st. induction recs as [|rec recs IH]; intros st H; simpl in *.
  - now exists st.
  - apply andb_prop in H as [Hrec Hrecs].
    unfold colors_well_formed in Hrec. unfold transform_record.
    destruct (get_default rec "colors" (VList [])) as [| | | | |cs|];
      try discriminate.
    destruct (color_loop_total rec cs (colors_list st) Hrec) as [acc' Hacc].
    simpl. unfold_result. rewrite Hacc. now apply IH.
Qed.

Lemma color_rows_length (rec : dict) (cs : list value) (rows : list dict) :
  color_rows rec cs rows -> length rows = length cs.
Proof. intros H. symmetry. exact (Forall2_length _ _ _ H). Qed.

Lemma color_rows_objectid (rec : dict) (cs : list value) (rows : list dict) :
  color_rows rec cs rows ->
  Forall (fun row => get row "objectid" = get rec "id") rows.
Proof.
  induction 1 as [|c row cs rows Hc _ IH]; constructor; [|assumption].
  destruct c; try discriminate. inversion Hc. reflexivity.
Qed.

Lemma record_colors_well_formed (rec : dict) (rows : list dict) :
  colors_well_formed rec = true ->
  record_colors rec rows -> color_rows rec (colors_of rec) rows.
Proof.
  unfold colors_well_formed, record_colors, colors_of.
  intros Hwf (cs & Hiter & Hrows).
  destruct (get_default rec "colors" (VList [])); try discriminate.
  inversion Hiter; now subst.
Qed.

Lemma chunks_well_formed (recs : list dict) (chunks : list (list dict)) :
  forallb colors_well_formed recs = true ->
  Forall2 record_colors recs chunks ->
  Forall2 (fun rec rows => color_rows rec (colors_of rec) rows) recs chunks
  /\ length (concat chunks)
     = sum_list_with (fun rec => length (colors_of rec)) recs.
Proof.
  intros Hwf H. induction H as [|rec rows recs chunks Hrec _ IH]; simpl in *.
  - split; [constructor | reflexivity].
  - apply andb_prop in Hwf as [Hwf1 Hwf2].
    destruct (IH Hwf2) as [IH1 IH2].
    pose proof (record_colors_well_formed _ _ Hwf1 Hrec) as Hrows.
    split; [now constructor|].
    rewrite length_app, IH2, (color_rows_length _ _ _ Hrows). reflexivity.
Qed.

(** C1, as stated, fails: a raw record whose [colors] field is present but
    null makes [for c in colors] raise, so [transform_records] returns no
    lists at all for it. *)
Lemma transform_records_null_colors :
  transform_records [[("id", VInt 1); ("colors", VNone)]] = Raise TypeError
  /\ ~ (exists out,
          transform_records [[("id", VInt 1); ("colors", VNone)]] = Ok out).
Proof.
  split; [reflexivity|]. intros [out H]. discriminate H.
Qed.

(** C1 (amended): on every list of raw records whose [colors] field, where
    present, is a list of objects (the empty list, records missing any field
    and records with an empty color list included), [transform_records]
    returns three lists: the metadata rows and the media rows are one per
    record, in record order, so both lengths equal the input length; the
    color rows are, record after record, one row per entry of the record's
    color list in the order of that list, so their number is the sum of the
    lengths of the color lists. *)
Theorem transform_records_total (recs : list dict) :
  forallb colors_well_formed recs = true ->
  exists md me co chunks,
    transform_records recs = Ok (md, me, co)
    /\ md = map metadata_row recs
    /\ me = map media_row recs
    /\ length md = length recs
    /\ length me = length recs
    /\ co = concat chunks
    /\ Forall2 (fun rec rows => color_rows rec (colors_of rec) rows) recs chunks
    /\ length co = sum_list_with (fun rec => length (colors_of rec)) recs.
Proof.
  intros Hwf. unfold transform_records.
  destruct (transform_loop_total recs
              {| metadata_list := []; media_list := []; colors_list := [] |} Hwf)
    as [st' Hloop].
  rewrite Hloop.
  apply transform_loop_inv in Hloop as (Hmd & Hme & chunks & Hco & Hchunks).
  simpl in Hmd, Hme, Hco.
  destruct (chunks_well_formed recs chunks Hwf Hchunks) as [Hrows Hlen].
  exists (metadata_list st'), (media_list st'), (colors_list st'), chunks.
  unfold_result. rewrite Hmd, Hme, Hco, !length_map.
  repeat split; first [assumption | reflexivity].
Qed.

Lemma transform_records_total_witness :
  forallb colors_well_formed sample_records = true
  /\ exists md me co chunks,
       transform_records sample_records = Ok (md, me, co)
       /\ md = map metadata_row sample_records
       /\ me = map media_row sample_records
       /\ length md = length sample_records
       /\ length me = length sample_records
       /\ co = concat chunks
       /\ Forall2 (fun rec rows => color_rows rec (colors_of rec) rows)
                  sample_records chunks
       /\ length co
          = sum_list_with (fun rec => length (colors_of rec)) sample_records.
Proof.
  split; [reflexivity | apply (transform_records_total sample_records)].
  reflexivity.
Defined.

Lemma media_rows_objectid (recs : list dict) :
  Forall2 (fun rec m => get m "objectid" = get rec "id")
          recs (map media_row recs).
Proof. induction recs; simpl; constructor; [reflexivity | assumption]. Qed.

Lemma record_colors_objectid (recs : list dict) (chunks : list (list dict)) :
  Forall2 record_colors recs chunks ->
  Forall2 (fun rec rows =>
             record_colors rec rows
             /\ Forall (fun row => get row "objectid" = get rec "id") rows)
          recs chunks.
Proof.
  induction 1 as [|rec rows recs chunks Hrec _ IH]; constructor; [|assumption].
  split; [assumption|]. destruct Hrec as (cs & _ & Hrows).
  exact (color_rows_objectid _ _ _ Hrows).
Qed.

(** C10: whenever [transform_records] returns, the media row of each input
    record carries that record's id as its object id, and the color rows
    are, record by record, the rows produced from that record's color list,
    each carrying that record's id as its object id.  In particular a record
    with id 42 and a color list of two entries becomes exactly one metadata
    row, one media row and two color rows, all four carrying 42. *)
Theorem transform_records_object_id :
  (forall recs md me co,
      transform_records recs = Ok (md, me, co) ->
      Forall2 (fun rec m => get m "objectid" = get rec "id") recs me
      /\ exists chunks,
           co = concat chunks
           /\ Forall2 (fun rec rows =>
                         record_colors rec rows
                         /\ Forall (fun row => get row "objectid" = get rec "id")
                                   rows)
                      recs chunks)
  /\ (forall rec c1 c2,
        get rec "id" = VInt 42 ->
        get_default rec "colors" (VList []) = VList [VDict c1; VDict c2] ->
        exists m me r1 r2,
          transform_records [rec] = Ok ([m], [me], [r1; r2])
          /\ get m "id" = VInt 42
          /\ get me "objectid" = VInt 42
          /\ get r1 "objectid" = VInt 42
          /\ get r2 "objectid" = VInt 42).
Proof.
  split.
  - intros recs md me co H. unfold transform_records in H.
    destruct (for_each _ _ recs) as [st'|e] eqn:Hloop; [|discriminate].
    unfold_result. inversion H; subst; clear H.
    apply transform_loop_inv in Hloop as (_ & Hme & chunks & Hco & Hchunks).
    simpl in Hme, Hco. rewrite Hme, Hco. split.
    + apply media_rows_objectid.
    + exists chunks. split; [reflexivity|].
      now apply record_colors_objectid.
  - intros rec c1 c2 Hid Hcolors.
    unfold transform_records, transform_record. simpl.
    rewrite Hcolors. simpl.
    do 4 eexists. split; [reflexivity|].
    unfold metadata_row, media_row. simpl. rewrite Hid. repeat split.
Qed.

Lemma transform_records_object_id_witness :
  transform_records [record_42]
    = Ok ([metadata_row record_42], [media_row record_42], record_42_colors)
  /\ get record_42 "id" = VInt 42
  /\ Forall2 (fun rec m => get m "objectid" = get rec "id")
             [record_42] [media_row record_42]
  /\ (exists chunks,
        record_42_colors = concat chunks
        /\ Forall2 (fun rec rows =>
                      record_colors rec rows
                      /\ Forall (fun row => get row "objectid" = get rec "id")
                                rows)
                   [record_42] chunks)
  /\ exists m me r1 r2,
       transform_records [record_42] = Ok ([m], [me], [r1; r2])
       /\ get m "id" = VInt 42
       /\ get me "objectid" = VInt 42
       /\ get r1 "objectid" = VInt 42
       /\ get r2 "objectid" = VInt 42.
Proof.
  destruct transform_records_object_id as [Hall H42].
  split; [reflexivity|]. split; [reflexivity|].
  destruct (Hall [record_42] [metadata_row record_42] [media_row record_42]
              record_42_colors eq_refl) as [Hmedia Hcolors].
  split; [exact Hmedia|]. split; [exact Hcolors|].
  exact (H42 record_42 _ _ eq_refl eq_refl).
Defined.

(** ** Remote Fetcher *)

(** The three ways out of the loop, and the one way on. *)

Lemma fetch_loop_full (fuel : nat) (api : endpoint) (cls : string)
    (sz max_records : Z) (s : fetch_state) :
  max_records <= Z.of_nat (length (records s)) ->
  fetch_loop (S fuel) api cls sz max_records s = Some (s, Ok tt).
Proof.
  intros H. simpl.
  destruct (Z.ltb_spec (Z.of_nat (length (records s))) max_records); [lia|].
  reflexivity.
Qed.

Lemma fetch_loop_failed (fuel : nat) (api : endpoint) (cls : string)
    (sz max_records : Z) (s : fetch_state) :
  Z.of_nat (length (records s)) < max_records ->
  status_code (api (page_params cls sz (cur_page s))) <> 200 ->
  fetch_loop (S fuel) api cls sz max_records s =
  Some ({| records := records s;
           cur_page := cur_page s;
           requests_sent := requests_sent s ++ [page_params cls sz (cur_page s)];
           st_errors :=
             st_errors s
             ++ [status_code (api (page_params cls sz (cur_page s)))] |},
        Ok tt).
Proof.
  intros Hlt Hst. simpl.
  destruct (Z.ltb_spec (Z.of_nat (length (records s))) max_records); [|lia].
  destruct (Z.eqb_spec (status_code (api (page_params cls sz (cur_page s)))) 200);
    [contradiction|].
  reflexivity.
Qed.

Lemma fetch_loop_last (fuel : nat) (api : endpoint) (cls : string)
    (sz max_records : Z) (s : fetch_state) (new : list value) :
  Z.of_nat (length (records s)) < max_records ->
  last_page (api (page_params cls sz (cur_page s))) new ->
  fetch_loop (S fuel) api cls sz max_records s =
  Some ({| records := records s ++ new;
           cur_page := cur_page s;
           requests_sent := requests_sent s ++ [page_params cls sz (cur_page s)];
           st_errors := st_errors s |},
        Ok tt).
Proof.
  intros Hlt (Hst & data & next & Hjson & Hrecs & Hnext & Hfalsy). simpl.
  destruct (Z.ltb_spec (Z.of_nat (length (records s))) max_records); [|lia].
  rewrite Hst, Hjson, Hrecs, Hnext, Hfalsy. reflexivity.
Qed.

Lemma fetch_loop_continue (fuel : nat) (api : endpoint) (cls : string)
    (sz max_records : Z) (s : fetch_state) (new : list value) :
  Z.of_nat (length (records s)) < max_records ->
  continuing_page (api (page_params cls sz (cur_page s))) new ->
  fetch_loop (S fuel) api cls sz max_records s =
  fetch_loop fuel api cls sz max_records (advance cls sz s [new]).
Proof.
  intros Hlt (Hst & data & next & Hjson & Hrecs & Hnext & Htruthy). simpl.
  destruct (Z.ltb_spec (Z.of_nat (length (records s))) max_records); [|lia].
  rewrite Hst, Hjson, Hrecs, Hnext, Htruthy. simpl.
  unfold advance. simpl. rewrite app_nil_r. reflexivity.
Qed.

Lemma advance_cons (cls : string) (sz : Z) (s : fetch_state)
    (new : list value) (rest : list (list value)) :
  advance cls sz s (new :: rest) = advance cls sz (advance cls sz s [new]) rest.
Proof.
  unfold advance. simpl. rewrite app_nil_r, <- !app_assoc. simpl.
  f_equal. lia.
Qed.

(** More fuel never changes a result already reached. *)
Lemma fetch_loop_fuel_mono (fuel extra : nat) (api : endpoint) (cls : string)
    (sz max_records : Z) (s : fetch_state) (r : fetch_state * result unit) :
  fetch_loop fuel api cls sz max_records s = Some r ->
  fetch_loop (fuel + extra) api cls sz max_records s = Some r.
Proof.
  revert s. induction fuel as [|fuel IH]; intros s H; [discriminate|].
  simpl in *.
  destruct (_ <? _); [|assumption].
  destruct (negb _); [assumption|].
  destruct (json _); [|assumption].
  destruct (page_records _); [|assumption].
  destruct (page_next _); [|assumption].
  destruct (negb _); [assumption|].
  now apply IH.
Qed.

Lemma page_requests_snoc (cls : string) (sz p : Z) (n : nat) :
  page_requests cls sz p (S n)
  = page_requests cls sz p n ++ [page_params cls sz (p + Z.of_nat n)].
Proof.
  revert p. induction n as [|n IH]; intros p.
  - simpl. now rewrite Z.add_0_r.
  - change (page_requests cls sz p (S (S n)))
      with (page_params cls sz p :: page_requests cls sz (p + 1) (S n)).
    rewrite IH.
    replace (p + 1 + Z.of_nat n) with (p + Z.of_nat (S n)) by lia.
    reflexivity.
Qed.

(** Reading a run of continuing pages while the accumulator stays below
    [max_records]. *)
Lemma fetch_loop_continues (api : endpoint) (cls : string) (sz max_records : Z)
    (p : Z) (pages : list (list value)) :
  continues api cls sz p pages ->
  forall (s : fetch_state) (fuel : nat),
    cur_page s = p ->
    Z.of_nat (length (records s ++ concat pages)) < max_records ->
    fetch_loop (length pages + fuel) api cls sz max_records s
    = fetch_loop fuel api cls sz max_records (advance cls sz s pages).
Proof.
  induction 1 as [p|p new rest Hpage _ IH]; intros s fuel Hp Hlen.
  - simpl. unfold advance. simpl. rewrite !app_nil_r, Z.add_0_r.
    now destruct s.
  - subst p. simpl in Hlen. rewrite !length_app in Hlen.
    change (length (new :: rest) + fuel)%nat with (S (length rest + fuel)).
    rewrite (fetch_loop_continue _ _ _ _ _ _ new); [|lia|assumption].
    rewrite (advance_cons _ _ s new rest). apply IH; [reflexivity|].
    simpl. rewrite app_nil_r, !length_app. lia.
Qed.

(** Reading a whole collection: the loop leaves normally, through its
    condition or at the last page, with no diagnostic, and what it has
    accumulated agrees with the collection on the first [max_records]
    records. *)
Lemma fetch_loop_serves (api : endpoint) (cls : string) (sz max_records : Z)
    (p : Z) (init : list (list value)) :
  continues api cls sz p init ->
  forall (final : list value) (s : fetch_state) (fuel : nat),
    cur_page s = p ->
    last_page (api (page_params cls sz (p + Z.of_nat (length init)))) final ->
    (length init < fuel)%nat ->
    exists s',
      fetch_loop fuel api cls sz max_records s = Some (s', Ok tt)
      /\ st_errors s' = st_errors s
      /\ firstn (Z.to_nat max_records) (records s')
         = firstn (Z.to_nat max_records) (records s ++ concat init ++ final).
Proof.
  induction 1 as [p|p new rest Hpage _ IH]; intros final s fuel Hp Hlast Hfuel;
    (destruct fuel as [|fuel]; [simpl in Hfuel; lia|]);
    destruct (Z.lt_ge_cases (Z.of_nat (length (records s))) max_records)
      as [Hlt|Hge].
  - simpl in Hlast. rewrite Z.add_0_r, <- Hp in Hlast.
    rewrite (fetch_loop_last _ _ _ _ _ _ final Hlt Hlast).
    eexists. split; [reflexivity|]. split; reflexivity.
  - rewrite (fetch_loop_full _ _ _ _ _ _ Hge).
    exists s. split; [reflexivity|]. split; [reflexivity|].
    symmetry. apply take_app_le. lia.
  - subst p.
    rewrite (fetch_loop_continue _ _ _ _ _ _ new Hlt Hpage).
    destruct (IH final (advance cls sz s [new]) fuel) as (s' & Hrun & Herr & Hrec).
    + reflexivity.
    + simpl length in Hlast.
      replace (cur_page s + 1 + Z.of_nat (length rest))
        with (cur_page s + Z.of_nat (S (length rest))) by lia.
      exact Hlast.
    + simpl in Hfuel. lia.
    + exists s'. split; [assumption|]. split; [assumption|].
      rewrite Hrec. simpl. now rewrite app_nil_r, <- !app_assoc.
  - rewrite (fetch_loop_full _ _ _ _ _ _ Hge).
    exists s. split; [reflexivity|]. split; [reflexivity|].
    symmetry. apply take_app_le. lia.
Qed.

(** C7: with [max_records = 0] the loop condition fails at once, for every
    classification, page size and endpoint: the call returns the empty list
    and has issued no request (and shown no diagnostic). *)
Theorem fetch_zero_max_records (fuel : nat) (api : endpoint) (cls : string)
    (sz : Z) :
  fetch_artifacts_by_classification (S fuel) api cls sz 0
  = Some {| returned := Ok []; issued := []; diagnostics := [] |}.
Proof. reflexivity. Qed.

(** C6: when the pages before some page were all read and the request for
    that page is answered with a status other than 200, that request is the
    last one of the call (the requests issued are those for the pages up to
    it, each once), the status is reported, and the call returns the records
    accumulated from the earlier pages, cut to [max_records] (which cuts
    nothing, as the request was only issued with fewer than that). *)
Theorem fetch_stops_at_failed_page (api : endpoint) (cls : string)
    (sz max_records : Z) (pages : list (list value)) (fuel : nat) :
  continues api cls sz 1 pages ->
  Z.of_nat (length (concat pages)) < max_records ->
  status_code (api (page_params cls sz (1 + Z.of_nat (length pages)))) <> 200 ->
  (length pages < fuel)%nat ->
  fetch_artifacts_by_classification fuel api cls sz max_records
  = Some {| returned := Ok (py_slice_to (concat pages) max_records);
            issued := page_requests cls sz 1 (S (length pages));
            diagnostics :=
              [status_code
                 (api (page_params cls sz (1 + Z.of_nat (length pages))))] |}
  /\ py_slice_to (concat pages) max_records = concat pages.
Proof.
  intros Hpages Hlen Hfail Hfuel. split.
  - unfold fetch_artifacts_by_classification.
    replace fuel with (length pages + S (fuel - S (length pages)))%nat by lia.
    rewrite (fetch_loop_continues _ _ _ _ _ _ Hpages); [|reflexivity|exact Hlen].
    rewrite fetch_loop_failed; [|exact Hlen|exact Hfail].
    rewrite page_requests_snoc. reflexivity.
  - unfold py_slice_to.
    destruct (Z.ltb_spec max_records 0); [lia|].
    apply firstn_all2. lia.
Qed.

Lemma fetch_stops_at_failed_page_witness :
  continues flaky_api "Coins" 2 1 [[coin 1; coin 2]; [coin 3; coin 4]]
  /\ fetch_artifacts_by_classification 5 flaky_api "Coins" 2 250
     = Some {| returned := Ok [coin 1; coin 2; coin 3; coin 4];
               issued := [page_params "Coins" 2 1; page_params "Coins" 2 2;
                          page_params "Coins" 2 3];
               diagnostics := [503] |}.
Proof.
  assert (Hpages :
    continues flaky_api "Coins" 2 1 [[coin 1; coin 2]; [coin 3; coin 4]]).
  { repeat (constructor;
            [split; [reflexivity|]; do 2 eexists; repeat split; reflexivity|]).
    constructor. }
  split; [exact Hpages|].
  refine (proj1 (fetch_stops_at_failed_page flaky_api "Coins" 2 250
                   [[coin 1; coin 2]; [coin 3; coin 4]] 5 Hpages _ _ _)).
  - simpl. lia.
  - simpl. lia.
  - simpl. lia.
Defined.

Lemma py_slice_to_nonneg {A : Type} (l : list A) (m : Z) :
  0 <= m -> py_slice_to l m = firstn (Z.to_nat m) l.
Proof.
  intros H. unfold py_slice_to. now destruct (Z.ltb_spec m 0); [lia|].
Qed.

(** C2: for every classification and endpoint, a list the call returns has
    at most [max_records] elements and is the first [max_records] of the
    records the loop accumulated.  When the endpoint serves a collection
    (pages answered with status 200, each but the last carrying a next-page
    indicator), the call returns, with no diagnostic, the first
    [max_records] records of the collection, so exactly
    [min (total, max_records)] of them. *)
Theorem fetch_bounds :
  (forall fuel api cls sz max_records out l,
      0 <= max_records ->
      fetch_artifacts_by_classification fuel api cls sz max_records = Some out ->
      returned out = Ok l ->
      Z.of_nat (length l) <= max_records
      /\ exists s,
           fetch_loop fuel api cls sz max_records fetch_init = Some (s, Ok tt)
           /\ l = firstn (Z.to_nat max_records) (records s))
  /\ (forall api cls sz max_records pages fuel,
        0 <= max_records ->
        serves api cls sz 1 pages ->
        (length pages <= fuel)%nat ->
        exists out,
          fetch_artifacts_by_classification fuel api cls sz max_records
            = Some out
          /\ returned out
             = Ok (firstn (Z.to_nat max_records) (concat pages))
          /\ diagnostics out = []
          /\ Z.of_nat (length (firstn (Z.to_nat max_records) (concat pages)))
             = Z.min (Z.of_nat (length (concat pages))) max_records).
Proof.
  split.
  - intros fuel api cls sz max_records out l Hmax Hrun Hret.
    unfold fetch_artifacts_by_classification in Hrun.
    destruct (fetch_loop _ _ _ _ _ _) as [[s [[]|e]]|] eqn:Hloop;
      inversion Hrun; subst out; simpl in Hret; [|discriminate].
    inversion Hret; subst l. rewrite py_slice_to_nonneg by assumption.
    split.
    + rewrite length_take. lia.
    + exists s. split; reflexivity.
  - intros api cls sz max_records pages fuel Hmax
           (init & final & -> & Hinit & Hlast) Hfuel.
    rewrite length_app in Hfuel. simpl in Hfuel.
    destruct (fetch_loop_serves api cls sz max_records 1 init Hinit final
                fetch_init fuel) as (s' & Hrun & Herr & Hrec);
      [reflexivity | assumption | lia |].
    unfold fetch_artifacts_by_classification. rewrite Hrun.
    eexists. split; [reflexivity|]. simpl.
    rewrite py_slice_to_nonneg by assumption.
    rewrite concat_app. simpl. rewrite app_nil_r.
    simpl in Hrec. rewrite Hrec. repeat split; [assumption|].
    rewrite length_take. lia.
Qed.

Lemma fetch_bounds_witness :
  fetch_artifacts_by_classification 3 coins_api "Coins" 2 3
    = Some {| returned := Ok [coin 1; coin 2; coin 3];
              issued := [page_params "Coins" 2 1; page_params "Coins" 2 2];
              diagnostics := [] |}
  /\ (Z.of_nat (length [coin 1; coin 2; coin 3]) <= 3
      /\ exists s,
           fetch_loop 3 coins_api "Coins" 2 3 fetch_init = Some (s, Ok tt)
           /\ [coin 1; coin 2; coin 3] = firstn (Z.to_nat 3) (records s))
  /\ serves coins_api "Coins" 2 1 [[coin 1; coin 2]; [coin 3; coin 4]; [coin 5]]
  /\ exists out,
       fetch_artifacts_by_classification 3 coins_api "Coins" 2 250 = Some out
       /\ returned out
          = Ok (firstn (Z.to_nat 250)
                  (concat [[coin 1; coin 2]; [coin 3; coin 4]; [coin 5]]))
       /\ diagnostics out = []
       /\ Z.of_nat (length (firstn (Z.to_nat 250)
                      (concat [[coin 1; coin 2]; [coin 3; coin 4]; [coin 5]])))
          = Z.min (Z.of_nat (length
                      (concat [[coin 1; coin 2]; [coin 3; coin 4]; [coin 5]])))
                  250.
Proof.
  destruct fetch_bounds as [Hupper Hserved].
  assert (Hcoins :
    serves coins_api "Coins" 2 1 [[coin 1; coin 2]; [coin 3; coin 4]; [coin 5]]).
  { exists [[coin 1; coin 2]; [coin 3; coin 4]], [coin 5].
    split; [reflexivity|]. split.
    - repeat (constructor;
              [split; [reflexivity|]; do 2 eexists; repeat split; reflexivity|]).
      constructor.
    - split; [reflexivity|]. do 2 eexists. repeat split; reflexivity. }
  split; [reflexivity|]. split.
  - refine (Hupper 3%nat coins_api "Coins" 2 3 _ _ _ eq_refl eq_refl). lia.
  - split; [exact Hcoins|].
    refine (Hserved coins_api "Coins" 2 250 _ 3%nat _ Hcoins _).
    + lia.
    + simpl. lia.
Defined.

(** One turn of the loop, spelled out. *)
Lemma fetch_loop_unfold (fuel : nat) (api : endpoint) (cls : string)
    (sz max_records : Z) (s : fetch_state) :
  fetch_loop (S fuel) api cls sz max_records s =
  if Z.of_nat (length (records s)) <? max_records then
    let params := page_params cls sz (cur_page s) in
    let resp := api params in
    let s1 := {| records := records s; cur_page := cur_page s;
                 requests_sent := requests_sent s ++ [params];
                 st_errors := st_errors s |} in
    if negb (status_code resp =? 200) then
      Some ({| records := records s1; cur_page := cur_page s1;
               requests_sent := requests_sent s1;
               st_errors := st_errors s1 ++ [status_code resp] |}, Ok tt)
    else
      match json resp with
      | Raise e => Some (s1, Raise e)
      | Ok data =>
          match page_records data with
          | Raise e => Some (s1, Raise e)
          | Ok new =>
              let s2 := {| records := records s1 ++ new;
                           cur_page := cur_page s1;
                           requests_sent := requests_sent s1;
                           st_errors := st_errors s1 |} in
              match page_next data with
              | Raise e => Some (s2, Raise e)
              | Ok next =>
                  if negb (truthy next) then Some (s2, Ok tt)
                  else
                    fetch_loop fuel api cls sz max_records
                      {| records := records s2;
                         cur_page := cur_page s2 + 1;
                         requests_sent := requests_sent s2;
                         st_errors := st_errors s2 |}
              end
          end
      end
  else Some (s, Ok tt).
Proof. reflexivity. Qed.

(** When every continuing page brings at least one record, the distance of
    the accumulator to [max_records] bounds the turns of the loop. *)
Lemma fetch_loop_terminates (api : endpoint) (cls : string) (sz max_records : Z) :
  (forall p new,
      continuing_page (api (page_params cls sz p)) new -> new <> []) ->
  forall (n : nat) (s : fetch_state),
    (Z.to_nat (max_records - Z.of_nat (length (records s))) <= n)%nat ->
    exists r, fetch_loop (S n) api cls sz max_records s = Some r.
Proof.
  intros Hprogress. induction n as [|n IH]; intros s Hn;
    rewrite fetch_loop_unfold;
    destruct (Z.ltb_spec (Z.of_nat (length (records s))) max_records)
      as [Hlt|Hge]; try (eexists; reflexivity); [lia|].
  cbv zeta.
  destruct (Z.eqb_spec (status_code (api (page_params cls sz (cur_page s)))) 200)
    as [Hst|Hst]; simpl negb; cbv iota; [|eexists; reflexivity].
  destruct (json _) as [data|e] eqn:Hjson; [|eexists; reflexivity].
  destruct (page_records data) as [new|e] eqn:Hrecs; [|eexists; reflexivity].
  destruct (page_next data) as [next|e] eqn:Hnext; [|eexists; reflexivity].
  destruct (truthy next) eqn:Htruthy; simpl negb; cbv iota;
    [|eexists; reflexivity].
  assert (Hnew : new <> []).
  { apply (Hprogress (cur_page s)). split; [assumption|].
    exists data, next. repeat split; assumption. }
  apply IH. simpl. rewrite length_app.
  destruct new; [contradiction|]. simpl. lia.
Qed.

Lemma endless_loop (fuel : nat) (p : Z) (reqs : list request) :
  fetch_loop fuel endless_api "Coins" 100 250
    {| records := []; cur_page := p; requests_sent := reqs; st_errors := [] |}
  = None.
Proof.
  revert p reqs. induction fuel as [|fuel IH]; intros p reqs; [reflexivity|].
  rewrite fetch_loop_unfold. simpl. apply IH.
Qed.

(** C5, as stated, fails: against an endpoint that keeps answering 200 with
    an empty page and a next-page indicator, the accumulator never grows and
    none of the three stopping conditions is ever met; the call returns
    after no number of turns. *)
Lemma fetch_endless_pages_never_returns :
  ~ (exists fuel out,
       fetch_artifacts_by_classification fuel endless_api "Coins" 100 250
       = Some out).
Proof.
  intros (fuel & out & H). unfold fetch_artifacts_by_classification in H.
  unfold fetch_init in H. rewrite endless_loop in H. discriminate H.
Qed.

(** C5 (amended): the loop stops when the accumulator has reached or
    exceeded [max_records], when a page without a next-page indicator has
    been read, and when a request is answered with a status other than 200;
    and the call terminates, within [max_records] turns, whenever every page
    that carries a next-page indicator also brings at least one record. *)
Theorem fetch_terminates :
  (forall fuel api cls sz max_records s,
      (max_records <= Z.of_nat (length (records s)) ->
       fetch_loop (S fuel) api cls sz max_records s = Some (s, Ok tt))
      /\ (Z.of_nat (length (records s)) < max_records ->
          forall new,
            last_page (api (page_params cls sz (cur_page s))) new ->
            exists s',
              fetch_loop (S fuel) api cls sz max_records s = Some (s', Ok tt)
              /\ records s' = records s ++ new)
      /\ (Z.of_nat (length (records s)) < max_records ->
          status_code (api (page_params cls sz (cur_page s))) <> 200 ->
          exists s',
            fetch_loop (S fuel) api cls sz max_records s = Some (s', Ok tt)
            /\ records s' = records s))
  /\ (forall api cls sz max_records,
        (forall p new,
            continuing_page (api (page_params cls sz p)) new -> new <> []) ->
        exists out,
          fetch_artifacts_by_classification (S (Z.to_nat max_records))
            api cls sz max_records = Some out).
Proof.
  split.
  - intros fuel api cls sz max_records s. split; [|split].
    + apply fetch_loop_full.
    + intros Hlt new Hlast.
      rewrite (fetch_loop_last _ _ _ _ _ _ new Hlt Hlast).
      eexists. split; reflexivity.
    + intros Hlt Hfail. rewrite (fetch_loop_failed _ _ _ _ _ _ Hlt Hfail).
      eexists. split; reflexivity.
  - intros api cls sz max_records Hprogress.
    destruct (fetch_loop_terminates api cls sz max_records Hprogress
                (Z.to_nat max_records) fetch_init) as [[s r] Hrun].
    + simpl. lia.
    + unfold fetch_artifacts_by_classification. rewrite Hrun.
      eexists. reflexivity.
Qed.

Lemma fetch_terminates_witness :
  (0 <= Z.of_nat (length (records fetch_init))
   /\ fetch_loop 1 coins_api "Coins" 2 0 fetch_init = Some (fetch_init, Ok tt))
  /\ (forall p new,
         continuing_page (coins_api (page_params "Coins" 2 p)) new -> new <> [])
  /\ exists out,
       fetch_artifacts_by_classification (S (Z.to_nat 4)) coins_api "Coins" 2 4
       = Some out.
Proof.
  destruct fetch_terminates as [Hstops Hterm].
  assert (Hprogress : forall p new,
    continuing_page (coins_api (page_params "Coins" 2 p)) new -> new <> []).
  { intros p new (Hst & data & next & Hjson & Hrecs & Hnext & Htruthy).
    unfold coins_api in *. simpl in *.
    destruct (p =? 1); [inversion Hjson; subst; inversion Hrecs; discriminate|].
    destruct (p =? 2); [inversion Hjson; subst; inversion Hrecs; discriminate|].
    destruct (p =? 3); [|discriminate].
    inversion Hjson; subst; inversion Hnext; subst; discriminate. }
  split; [|split; [exact Hprogress|]].
  - assert (H0 : 0 <= Z.of_nat (length (records fetch_init))) by (simpl; lia).
    split; [exact H0|].
    exact (proj1 (Hstops 0%nat coins_api "Coins" 2 0 fetch_init) H0).
  - exact (Hterm coins_api "Coins" 2 4 Hprogress).
Defined.

(** ** Idempotent Loader *)

(** *** Transactions *)

Lemma execute_each_spec (stmt : dict -> store -> result store)
    (rows : list dict) (conn : connection) :
  match run_statements stmt rows (in_txn conn) with
  | Ok db' =>
      execute_each stmt rows conn
      = ({| on_disk := on_disk conn; in_txn := db' |}, Ok tt)
  | Raise e =>
      exists conn',
        execute_each stmt rows conn = (conn', Raise e)
        /\ on_disk conn' = on_disk conn
  end.
Proof.
  unfold run_statements. revert conn.
  induction rows as [|r rows IH]; intros conn; simpl.
  - now destruct conn.
  - unfold execute. destruct (stmt r (in_txn conn)) as [db1|e] eqn:Hstmt.
    + exact (IH {| on_disk := on_disk conn; in_txn := db1 |}).
    + now exists conn.
Qed.

(** What a loader does, in terms of its statements: all of them, or none. *)
Lemma loader_spec (stmt : dict -> store -> result store) (rows : list dict)
    (db : store) :
  with_connection (insert_body stmt rows) db =
  match run_statements stmt rows db with
  | Ok db' => (db', Ok tt)
  | Raise e => (db, Raise e)
  end.
Proof.
  unfold with_connection, insert_body.
  pose proof (execute_each_spec stmt rows (get_connection db)) as H.
  simpl in H. destruct (run_statements stmt rows db) as [db'|e].
  - now rewrite H.
  - destruct H as (conn' & -> & Hdisk). simpl. now rewrite Hdisk.
Qed.

Lemma run_statements_app (stmt : dict -> store -> result store)
    (pre post : list dict) (db : store) :
  run_statements stmt (pre ++ post) db =
  match run_statements stmt pre db with
  | Ok mid => run_statements stmt post mid
  | Raise e => Raise e
  end.
Proof. apply for_each_app. Qed.

Lemma loader_ok_inv (stmt : dict -> store -> result store) (rows : list dict)
    (db db' : store) :
  with_connection (insert_body stmt rows) db = (db', Ok tt) ->
  run_statements stmt rows db = Ok db'.
Proof.
  rewrite loader_spec. destruct (run_statements stmt rows db); intros H;
    inversion H; reflexivity.
Qed.

Lemma loader_aborts (stmt : dict -> store -> result store)
    (pre post : list dict) (r : dict) (db mid : store) (e : exn) :
  with_connection (insert_body stmt pre) db = (mid, Ok tt) ->
  stmt r mid = Raise e ->
  with_connection (insert_body stmt (pre ++ r :: post)) db = (db, Raise e).
Proof.
  intros Hpre Hr. apply loader_ok_inv in Hpre.
  rewrite loader_spec, run_statements_app, Hpre.
  unfold run_statements. simpl. now rewrite Hr.
Qed.

Lemma loader_failure_unchanged (stmt : dict -> store -> result store)
    (rows : list dict) (db db' : store) (e : exn) :
  with_connection (insert_body stmt rows) db = (db', Raise e) -> db' = db.
Proof.
  rewrite loader_spec. destruct (run_statements stmt rows db); intros H;
    inversion H; reflexivity.
Qed.

Lemma loader_all_or_nothing (stmt : dict -> store -> result store) :
  all_or_nothing stmt (fun rows db => with_connection (insert_body stmt rows) db).
Proof.
  split; [|split].
  - intros rows db db' H. now rewrite loader_spec, H.
  - intros pre r post db mid e. apply loader_aborts.
  - intros rows db db' e. apply loader_failure_unchanged.
Qed.

(** C9: each of the three loaders commits the effect of all the rows of a
    call as one unit.  When the statement of some row fails, the error
    reaches the caller, the rows after it are not inserted, and the store is
    left exactly as it was before the call: the rows inserted before the
    failing one are rolled back with the pending transaction. *)
Theorem insert_all_or_nothing (eng : engine) :
  all_or_nothing (exec_insert_metadata eng) (insert_metadata eng)
  /\ all_or_nothing (exec_insert_media eng) (insert_media eng)
  /\ all_or_nothing (exec_insert_colors eng) (insert_colors eng).
Proof.
  split; [|split]; apply loader_all_or_nothing.
Qed.

Lemma insert_all_or_nothing_witness :
  insert_metadata plain_engine [bowl_row] empty_store = (bowl_store, Ok tt)
  /\ exec_insert_metadata plain_engine malformed_row bowl_store = Raise BindError
  /\ insert_metadata plain_engine ([bowl_row] ++ malformed_row :: [jug_row])
       empty_store
     = (empty_store, Raise BindError).
Proof.
  destruct (insert_all_or_nothing plain_engine) as [(_ & Habort & _) _].
  assert (Hpre : insert_metadata plain_engine [bowl_row] empty_store
                 = (bowl_store, Ok tt)) by reflexivity.
  assert (Hbad : exec_insert_metadata plain_engine malformed_row bowl_store
                 = Raise BindError) by reflexivity.
  split; [exact Hpre|]. split; [exact Hbad|].
  exact (Habort [bowl_row] malformed_row [jug_row] empty_store bowl_store
           BindError Hpre Hbad).
Defined.

(** *** Binding and storing rows *)

Lemma bind_params_bindable (vs : list value) :
  forallb bindable vs = true ->
  exists ps, bind_params vs = Ok ps /\ length ps = length vs.
Proof.
  induction vs as [|v vs IH]; simpl; intros H.
  - now exists [].
  - apply andb_prop in H as [Hv Hvs]. destruct (IH Hvs) as (ps & Hps & Hlen).
    unfold bindable in Hv. destruct (bind_param v) as [p|e]; [|discriminate].
    exists (p :: ps). unfold_result. rewrite Hps. simpl. now rewrite Hlen.
Qed.

Lemma bind_params_fit (eng : engine) (cols : list column) (vs : list value) :
  all_fit cols vs = true ->
  exists ps,
    bind_params vs = Ok ps
    /\ store_row eng cols ps = ps
    /\ map sql_to_py ps = vs.
Proof.
  revert vs. induction cols as [|c cols IH]; intros [|v vs] H;
    simpl in H; try discriminate.
  - now exists [].
  - apply andb_prop in H as [Hv Hvs]. destruct (IH vs Hvs) as (ps & Hps & Hrow & Hpy).
    assert (Hp : exists p, bind_param v = Ok p
                           /\ apply_affinity eng (col_affinity c) p = p
                           /\ sql_to_py p = v).
    { destruct v, (col_affinity c); try discriminate; simpl in Hv |- *;
        try rewrite Hv; eexists; (split; [reflexivity|]); split; reflexivity. }
    destruct Hp as (p & Hp & Haff & Hpyp).
    exists (p :: ps). simpl. unfold_result. rewrite Hp, Hps, Haff, Hrow, Hpyp, Hpy.
    repeat split.
Qed.

(** *** [INSERT OR IGNORE] into the keyed table *)

Lemma exec_insert_metadata_key (eng : engine) (r : dict) (db : store) (n : Z)
    (rest : list sqlval) :
  bind_params (metadata_params r) = Ok (SInteger n :: rest) ->
  exec_insert_metadata eng r db =
  Ok (match artifact_metadata db !! n with
      | Some _ => db
      | None =>
          put_metadata db n (store_row eng (tail artifact_metadata_columns) rest)
      end).
Proof.
  intros Hbind. unfold exec_insert_metadata. rewrite Hbind. simpl.
  now destruct (artifact_metadata db !! n).
Qed.

Lemma bind_params_cons (v : value) (vs : list value) :
  bind_params (v :: vs) =
  match bind_param v with
  | Ok p =>
      match bind_params vs with
      | Ok ps => Ok (p :: ps)
      | Raise e => Raise e
      end
  | Raise e => Raise e
  end.
Proof. reflexivity. Qed.

Lemma metadata_params_bind_inv (r : dict) (n : Z) (ps : list sqlval) :
  get r "id" = VInt n ->
  bind_params (metadata_params r) = Ok ps ->
  exists rest, ps = SInteger n :: rest.
Proof.
  intros Hid Hps. unfold metadata_params in Hps.
  rewrite bind_params_cons, Hid in Hps. cbn [bind_param] in Hps.
  destruct (in_int64 n); [|discriminate].
  destruct (bind_params _) as [rest|e]; [|discriminate].
  inversion Hps. now exists rest.
Qed.

Lemma metadata_params_bind (r : dict) (n : Z) :
  get r "id" = VInt n ->
  forallb bindable (metadata_params r) = true ->
  exists rest, bind_params (metadata_params r) = Ok (SInteger n :: rest).
Proof.
  intros Hid Hb. destruct (bind_params_bindable _ Hb) as (ps & Hps & _).
  destruct (metadata_params_bind_inv r n ps Hid Hps) as [rest ->].
  now exists rest.
Qed.

(** A statement never touches a row already stored. *)
Lemma exec_insert_metadata_preserves (eng : engine) (r : dict) (db db' : store)
    (k : Z) (row : list sqlval) :
  exec_insert_metadata eng r db = Ok db' ->
  artifact_metadata db !! k = Some row ->
  artifact_metadata db' !! k = Some row.
Proof.
  unfold exec_insert_metadata. unfold_result.
  destruct (bind_params _) as [[|key rest]|e]; intros H Hk; try discriminate.
  - now inversion H; subst.
  - destruct (rowid_of _ _ key) as [rowid|e]; [|discriminate].
    destruct (artifact_metadata db !! rowid) eqn:Hrow; inversion H; subst;
      [assumption|].
    simpl. rewrite lookup_insert_ne; [assumption|]. congruence.
Qed.

Lemma run_insert_metadata_preserves (eng : engine) (rows : list dict)
    (db db' : store) (k : Z) (row : list sqlval) :
  run_statements (exec_insert_metadata eng) rows db = Ok db' ->
  artifact_metadata db !! k = Some row ->
  artifact_metadata db' !! k = Some row.
Proof.
  unfold run_statements. revert db.
  induction rows as [|r rows IH]; intros db H Hk; simpl in H.
  - now inversion H; subst.
  - destruct (exec_insert_metadata eng r db) as [db1|e] eqn:Hr; [|discriminate].
    eapply IH; [exact H|]. eapply exec_insert_metadata_preserves; eassumption.
Qed.

(** After a statement for a row with an integer id, that id is stored. *)
Lemma exec_insert_metadata_present (eng : engine) (r : dict) (db db' : store)
    (n : Z) :
  get r "id" = VInt n ->
  exec_insert_metadata eng r db = Ok db' ->
  is_Some (artifact_metadata db' !! n).
Proof.
  intros Hid H.
  destruct (bind_params (metadata_params r)) as [ps|e] eqn:Hps.
  - destruct (metadata_params_bind_inv r n ps Hid Hps) as [rest ->].
    rewrite (exec_insert_metadata_key eng r db n rest Hps) in H.
    inversion H; subst; clear H.
    destruct (artifact_metadata db !! n) eqn:Hn; [now rewrite Hn|].
    simpl. now rewrite lookup_insert_eq.
  - unfold exec_insert_metadata in H. rewrite Hps in H. discriminate H.
Qed.

Lemma run_insert_metadata_present (eng : engine) (rows : list dict)
    (db db' : store) (r : dict) (n : Z) :
  get r "id" = VInt n ->
  In r rows ->
  run_statements (exec_insert_metadata eng) rows db = Ok db' ->
  is_Some (artifact_metadata db' !! n).
Proof.
  intros Hid. unfold run_statements. revert db.
  induction rows as [|r' rows IH]; intros db Hin H; simpl in *; [contradiction|].
  destruct (exec_insert_metadata eng r' db) as [db1|e] eqn:Hr; [|discriminate].
  destruct Hin as [->|Hin]; [|now apply (IH db1)].
  destruct (exec_insert_metadata_present eng r db db1 n Hid Hr) as [row Hrow].
  exists row. eapply run_insert_metadata_preserves; eassumption.
Qed.

Lemma select_by_id_present (db : store) (n : Z) :
  is_Some (artifact_metadata db !! n) ->
  length (run_query (SelectMetadataById n) db) = 1%nat.
Proof. intros [row Hrow]. simpl. now rewrite Hrow. Qed.

Lemma exec_insert_metadata_again (eng : engine) (r : dict) (db db1 : store)
    (n : Z) :
  get r "id" = VInt n ->
  exec_insert_metadata eng r db = Ok db1 ->
  exec_insert_metadata eng r db1 = Ok db1.
Proof.
  intros Hid H.
  destruct (exec_insert_metadata_present eng r db db1 n Hid H) as [row Hrow].
  destruct (bind_params (metadata_params r)) as [ps|e] eqn:Hps.
  - destruct (metadata_params_bind_inv r n ps Hid Hps) as [rest ->].
    now rewrite (exec_insert_metadata_key eng r db1 n rest Hps), Hrow.
  - unfold exec_insert_metadata in H. rewrite Hps in H. discriminate H.
Qed.

Lemma insert_metadata_spec (eng : engine) (rows : list dict) (db : store) :
  insert_metadata eng rows db =
  match run_statements (exec_insert_metadata eng) rows db with
  | Ok db' => (db', Ok tt)
  | Raise e => (db, Raise e)
  end.
Proof. apply loader_spec. Qed.

(** C3: for a metadata row [r] with an integer id whose fields can be bound,
    and every store: loading [r] succeeds; loading it again, in a second
    call or later in the same call, raises nothing and changes nothing, so
    exactly one row with that id is stored; and when the id was already
    stored the first load changes nothing either.  After any successful call
    whose rows contain [r], exactly one row has its id.  No call ever
    changes a row already stored: the first write wins. *)
Theorem insert_metadata_first_write_wins (eng : engine) (r : dict) (n : Z) :
  get r "id" = VInt n ->
  (forall db,
      forallb bindable (metadata_params r) = true ->
      exists db1,
        insert_metadata eng [r] db = (db1, Ok tt)
        /\ insert_metadata eng [r] db1 = (db1, Ok tt)
        /\ insert_metadata eng [r; r] db = (db1, Ok tt)
        /\ length (run_query (SelectMetadataById n) db1) = 1%nat
        /\ (is_Some (artifact_metadata db !! n) -> db1 = db))
  /\ (forall rows db db1,
         In r rows ->
         insert_metadata eng rows db = (db1, Ok tt) ->
         length (run_query (SelectMetadataById n) db1) = 1%nat)
  /\ (forall rows db k row,
         artifact_metadata db !! k = Some row ->
         artifact_metadata (fst (insert_metadata eng rows db)) !! k = Some row).
Proof.
  intros Hid. split; [|split].
  - intros db Hb. destruct (metadata_params_bind r n Hid Hb) as [rest Hbind].
    pose proof (exec_insert_metadata_key eng r db n rest Hbind) as Hfirst.
    set (db1 := match artifact_metadata db !! n with
                | Some _ => db
                | None =>
                    put_metadata db n
                      (store_row eng (tail artifact_metadata_columns) rest)
                end) in Hfirst.
    pose proof (exec_insert_metadata_again eng r db db1 n Hid Hfirst) as Hagain.
    exists db1. rewrite !insert_metadata_spec. unfold run_statements. simpl.
    rewrite Hfirst, Hagain. repeat split.
    + apply select_by_id_present.
      exact (exec_insert_metadata_present eng r db db1 n Hid Hfirst).
    + intros [row Hrow]. subst db1. now rewrite Hrow.
  - intros rows db db1 Hin Hrun. apply select_by_id_present.
    apply loader_ok_inv in Hrun.
    exact (run_insert_metadata_present eng rows db db1 r n Hid Hin Hrun).
  - intros rows db k row Hk. rewrite insert_metadata_spec.
    destruct (run_statements _ rows db) as [db'|e] eqn:Hrun; simpl.
    + exact (run_insert_metadata_preserves eng rows db db' k row Hrun Hk).
    + exact Hk.
Qed.

Lemma insert_metadata_first_write_wins_witness :
  get bowl_row "id" = VInt 1
  /\ forallb bindable (metadata_params bowl_row) = true
  /\ (exists db1,
        insert_metadata plain_engine [bowl_row] empty_store = (db1, Ok tt)
        /\ insert_metadata plain_engine [bowl_row] db1 = (db1, Ok tt)
        /\ insert_metadata plain_engine [bowl_row; bowl_row] empty_store
           = (db1, Ok tt)
        /\ length (run_query (SelectMetadataById 1) db1) = 1%nat
        /\ (is_Some (artifact_metadata empty_store !! 1) -> db1 = empty_store))
  /\ In bowl_row [jug_row; bowl_row]
  /\ length (run_query (SelectMetadataById 1)
               (fst (insert_metadata plain_engine [jug_row; bowl_row]
                       bowl_store))) = 1%nat
  /\ artifact_metadata
       (fst (insert_metadata plain_engine
               [[("id", VInt 1); ("title", VStr "Another bowl")]] bowl_store))
       !! 1
     = artifact_metadata bowl_store !! 1.
Proof.
  destruct (insert_metadata_first_write_wins plain_engine bowl_row 1 eq_refl)
    as (Htwice & Hbatch & Hkeep).
  assert (Hin : In bowl_row [jug_row; bowl_row]) by (right; left; reflexivity).
  split; [reflexivity|]. split; [reflexivity|].
  split; [exact (Htwice empty_store eq_refl)|].
  split; [exact Hin|]. split.
  - exact (Hbatch [jug_row; bowl_row] bowl_store _ Hin eq_refl).
  - exact (Hkeep [[("id", VInt 1); ("title", VStr "Another bowl")]] bowl_store 1
             _ eq_refl).
Defined.

(** *** The keyless tables *)

Lemma exec_insert_media_bound (eng : engine) (r : dict) (db : store)
    (ps : list sqlval) :
  bind_params (media_params r) = Ok ps ->
  exec_insert_media eng r db
  = Ok (add_media db [store_row eng artifact_media_columns ps]).
Proof. intros H. unfold exec_insert_media. now rewrite H. Qed.

Lemma exec_insert_colors_bound (eng : engine) (r : dict) (db : store)
    (ps : list sqlval) :
  bind_params (colors_params r) = Ok ps ->
  exec_insert_colors eng r db
  = Ok (add_colors db [store_row eng artifact_colors_columns ps]).
Proof. intros H. unfold exec_insert_colors. now rewrite H. Qed.





(** *** Round trip *)

Lemma store_row_tail (eng : engine) (c : column) (cols : list column)
    (p : sqlval) (ps : list sqlval) :
  store_row eng (c :: cols) (p :: ps) = p :: ps -> store_row eng cols ps = ps.
Proof. cbn [store_row]. intros H. now injection H. Qed.

(** C8, as stated, fails: a row whose [title] is the integer 5 is loaded
    without error, but a TEXT column stores an integer as its decimal text,
    so the row read back by id has the string ["5"] where 5 was inserted.
    This is so with the engine that converts just that, and with every
    engine that converts integers put in TEXT columns this way. *)
Lemma metadata_round_trip_untyped :
  get number_title_row "id" = VInt 4
  /\ artifact_metadata empty_store !! 4 = None
  /\ insert_metadata integer_text_engine [number_title_row] empty_store
     = (number_title_store, Ok tt)
  /\ run_query (SelectMetadataById 4) number_title_store
     = [ [ SInteger 4; SText "5"; SNull; SNull; SNull; SNull; SNull; SNull;
           SNull; SNull; SNull; SNull ] ]
  /\ map sql_to_py
       [ SInteger 4; SText "5"; SNull; SNull; SNull; SNull; SNull; SNull;
         SNull; SNull; SNull; SNull ]
     <> metadata_params number_title_row
  /\ ~ (exists eng db' row,
          stores_integer_as_text eng
          /\ insert_metadata eng [number_title_row] empty_store = (db', Ok tt)
          /\ run_query (SelectMetadataById 4) db' = [row]
          /\ map sql_to_py row = metadata_params number_title_row).
Proof.
  split; [reflexivity|]. split; [reflexivity|]. split; [reflexivity|].
  split; [reflexivity|]. split; [discriminate|].
  intros (eng & db' & row & Htext & Hload & Hread & Hvalues).
  rewrite insert_metadata_spec in Hload. unfold run_statements in Hload.
  cbn [for_each] in Hload.
  rewrite (exec_insert_metadata_key eng number_title_row empty_store 4
             [SInteger 5; SNull; SNull; SNull; SNull; SNull; SNull; SNull;
              SNull; SNull; SNull] eq_refl) in Hload.
  change (artifact_metadata empty_store !! 4) with (@None (list sqlval)) in Hload.
  inversion Hload; subst db'; clear Hload.
  simpl in Hread. rewrite lookup_insert_eq in Hread.
  inversion Hread; subst row; clear Hread.
  rewrite (Htext 5) in Hvalues. discriminate Hvalues.
Qed.

(** C8 (amended): a metadata row with an integer id not yet stored, whose
    other fields are absent, null or of the type their column declares
    (text, and an integer accession year), is inserted by
    [insert_metadata], and [SELECT * FROM artifact_metadata WHERE id = n]
    then returns exactly one row, of twelve fields, whose values are the
    inserted ones field for field. *)
Theorem metadata_round_trip (eng : engine) (r : dict) (db : store) (n : Z) :
  get r "id" = VInt n ->
  metadata_row_typed r = true ->
  artifact_metadata db !! n = None ->
  exists db' row,
    insert_metadata eng [r] db = (db', Ok tt)
    /\ run_query (SelectMetadataById n) db' = [row]
    /\ length row = 12%nat
    /\ map sql_to_py row = metadata_params r.
Proof.
  intros Hid Htyped Hfresh. unfold metadata_row_typed in Htyped.
  rewrite Hid in Htyped.
  destruct (bind_params_fit eng _ _ Htyped) as (ps & Hps & Hrow & Hpy).
  destruct (metadata_params_bind_inv r n ps Hid Hps) as [rest ->].
  pose proof (store_row_tail eng _ (tail artifact_metadata_columns) _ rest Hrow)
    as Hrest.
  exists (put_metadata db n rest), (SInteger n :: rest).
  rewrite insert_metadata_spec. unfold run_statements. simpl for_each.
  rewrite (exec_insert_metadata_key eng r db n rest Hps), Hfresh, Hrest.
  split; [reflexivity|]. split; [|split].
  - simpl. now rewrite lookup_insert_eq.
  - rewrite <- (length_map sql_to_py), Hpy. reflexivity.
  - exact Hpy.
Qed.

Lemma metadata_round_trip_witness :
  get jug_row "id" = VInt 3
  /\ metadata_row_typed jug_row = true
  /\ artifact_metadata bowl_store !! 3 = None
  /\ exists db' row,
       insert_metadata plain_engine [jug_row] bowl_store = (db', Ok tt)
       /\ run_query (SelectMetadataById 3) db' = [row]
       /\ length row = 12%nat
       /\ map sql_to_py row = metadata_params jug_row.
Proof.
  split; [reflexivity|]. split; [reflexivity|]. split; [reflexivity|].
  exact (metadata_round_trip plain_engine jug_row bowl_store 3
           eq_refl eq_refl eq_refl).
Defined.

(** ** The pipeline on concrete inputs *)

Example transform_records_empty : transform_records [] = Ok ([], [], []).
Proof. reflexivity. Qed.

Example transform_records_entry_not_object :
  transform_records [[("id", VInt 1); ("colors", VList [VStr "Red"])]]
  = Raise AttributeError.
Proof. reflexivity. Qed.

Example transform_records_record_42 :
  transform_records [record_42]
  = Ok ([metadata_row record_42], [media_row record_42], record_42_colors).
Proof. reflexivity. Qed.

Example fetch_whole_collection :
  fetch_artifacts_by_classification 4 coins_api "Coins" 2 250
  = Some {| returned := Ok [coin 1; coin 2; coin 3; coin 4; coin 5];
            issued := page_requests "Coins" 2 1 3;
            diagnostics := [] |}.
Proof. reflexivity. Qed.

Example fetch_truncates :
  fetch_artifacts_by_classification 4 coins_api "Coins" 2 3
  = Some {| returned := Ok [coin 1; coin 2; coin 3];
            issued := page_requests "Coins" 2 1 2;
            diagnostics := [] |}.
Proof. reflexivity. Qed.

Example insert_metadata_null_id :
  artifact_metadata
    (fst (insert_metadata plain_engine [[("title", VStr "No id")]] bowl_store))
    !! 2
  = Some [ SText "No id"; SNull; SNull; SNull; SNull; SNull; SNull; SNull;
           SNull; SNull; SNull ].
Proof. reflexivity. Qed.

Example insert_metadata_text_id :
  insert_metadata plain_engine [bowl_row; [("id", VStr "abc")]] empty_store
  = (empty_store, Raise IntegrityError).
Proof. reflexivity. Qed.

Example insert_metadata_huge_year :
  insert_metadata plain_engine
    [[("id", VInt 9); ("accessionyear", VInt (2 ^ 63))]] bowl_store
  = (bowl_store, Raise OverflowError).
Proof. reflexivity. Qed.

(** * Further properties of the pipeline *)

(** ** Remote Fetcher: what a call does to the endpoint *)

(** One turn of the loop, by the way it ends. *)
Lemma fetch_loop_cases (fuel : nat) (api : endpoint) (cls : string)
    (sz max_records : Z) (s : fetch_state) (res : fetch_state * result unit) :
  fetch_loop (S fuel) api cls sz max_records s = Some res ->
  let req := page_params cls sz (cur_page s) in
  (max_records <= Z.of_nat (length (records s)) /\ res = (s, Ok tt))
  \/ (Z.of_nat (length (records s)) < max_records
      /\ ((status_code (api req) <> 200
           /\ res = ({| records := records s; cur_page := cur_page s;
                        requests_sent := requests_sent s ++ [req];
                        st_errors := st_errors s ++ [status_code (api req)] |},
                     Ok tt))
          \/ (status_code (api req) = 200
              /\ exists s' e,
                   res = (s', Raise e)
                   /\ requests_sent s' = requests_sent s ++ [req]
                   /\ st_errors s' = st_errors s)
          \/ (exists new,
                last_page (api req) new
                /\ res = ({| records := records s ++ new; cur_page := cur_page s;
                             requests_sent := requests_sent s ++ [req];
                             st_errors := st_errors s |}, Ok tt))
          \/ (exists new,
                continuing_page (api req) new
                /\ fetch_loop fuel api cls sz max_records (advance cls sz s [new])
                   = Some res))).
Proof.
  intros H req. rewrite fetch_loop_unfold in H. fold req in H.
  destruct (Z.ltb_spec (Z.of_nat (length (records s))) max_records) as [Hlt|Hge];
    [right; split; [exact Hlt|] | left; split; [exact Hge | now inversion H]].
  cbv zeta in H.
  destruct (Z.eqb_spec (status_code (api req)) 200) as [Hst|Hst];
    simpl negb in H; cbv iota in H;
    [|left; split; [exact Hst | now inversion H]].
  right.
  destruct (json (api req)) as [data|e] eqn:Hjson;
    [|left; split; [exact Hst|]; inversion H; eexists _, _; repeat split].
  destruct (page_records data) as [new|e] eqn:Hrecs;
    [|left; split; [exact Hst|]; inversion H; eexists _, _; repeat split].
  destruct (page_next data) as [next|e] eqn:Hnext;
    [|left; split; [exact Hst|]; inversion H; eexists _, _; repeat split].
  right. destruct (truthy next) eqn:Htruthy; simpl negb in H; cbv iota in H.
  - right. exists new. split.
    + split; [exact Hst|]. exists data, next. repeat split; assumption.
    + rewrite <- H. unfold advance. simpl. now rewrite app_nil_r.
  - left. exists new. split.
    + split; [exact Hst|]. exists data, next. repeat split; assumption.
    + now inversion H.
Qed.

Lemma page_requests_length (cls : string) (sz p : Z) (n : nat) :
  length (page_requests cls sz p n) = n.
Proof. revert p. induction n as [|n IH]; intros p; simpl; [|rewrite IH]; reflexivity. Qed.

(** The requests of a run are those for consecutive pages, from the current
    one on. *)
Lemma fetch_loop_requests (api : endpoint) (cls : string) (sz max_records : Z)
    (fuel : nat) :
  forall (s s' : fetch_state) (r : result unit),
    fetch_loop fuel api cls sz max_records s = Some (s', r) ->
    exists k,
      requests_sent s'
      = requests_sent s ++ page_requests cls sz (cur_page s) k.
Proof.
  induction fuel as [|fuel IH]; intros s s' r H; [discriminate|].
  apply fetch_loop_cases in H.
  destruct H as [[_ H]|[_ [[_ H]|[(_ & s1 & e & H & Hreq & _)|[(new & _ & H)|(new & _ & H)]]]]].
  - inversion H; subst. exists 0%nat. simpl. now rewrite app_nil_r.
  - inversion H; subst. now exists 1%nat.
  - inversion H; subst. now exists 1%nat.
  - inversion H; subst. now exists 1%nat.
  - apply IH in H as [k Hk]. exists (S k). rewrite Hk. simpl.
    now rewrite <- app_assoc.
Qed.

(** X1: whatever the endpoint answers and however the call ends, the
    requests it has issued are those for pages 1, 2, ..., k in this order,
    each once, all with the same key, classification and size and with
    [hasimage = 1]. *)
Theorem fetch_requests_consecutive (fuel : nat) (api : endpoint) (cls : string)
    (sz max_records : Z) (out : fetch_outcome) :
  fetch_artifacts_by_classification fuel api cls sz max_records = Some out ->
  issued out = page_requests cls sz 1 (length (issued out)).
Proof.
  unfold fetch_artifacts_by_classification.
  destruct (fetch_loop _ _ _ _ _ _) as [[s r]|] eqn:Hloop; [|discriminate].
  intros H. inversion H; subst out; clear H. simpl.
  apply fetch_loop_requests in Hloop as [k Hk]. simpl in Hk.
  now rewrite Hk, page_requests_length.
Qed.

Lemma fetch_requests_consecutive_witness :
  fetch_artifacts_by_classification 5 flaky_api "Coins" 2 250
    = Some {| returned := Ok [coin 1; coin 2; coin 3; coin 4];
              issued := [page_params "Coins" 2 1; page_params "Coins" 2 2;
                         page_params "Coins" 2 3];
              diagnostics := [503] |}
  /\ [page_params "Coins" 2 1; page_params "Coins" 2 2; page_params "Coins" 2 3]
     = page_requests "Coins" 2 1 3.
Proof.
  split; [reflexivity|].
  exact (fetch_requests_consecutive 5 flaky_api "Coins" 2 250 _ eq_refl).
Defined.

Lemma fetch_loop_diagnostics (api : endpoint) (cls : string) (sz max_records : Z)
    (fuel : nat) :
  forall (s s' : fetch_state) (r : result unit),
    fetch_loop fuel api cls sz max_records s = Some (s', r) ->
    exists extra,
      requests_sent s' = requests_sent s ++ extra
      /\ ((Forall (fun req => status_code (api req) = 200) extra
           /\ st_errors s' = st_errors s)
          \/ (exists init req,
                extra = init ++ [req]
                /\ Forall (fun req => status_code (api req) = 200) init
                /\ status_code (api req) <> 200
                /\ st_errors s' = st_errors s ++ [status_code (api req)]
                /\ r = Ok tt)).
Proof.
  induction fuel as [|fuel IH]; intros s s' r H; [discriminate|].
  apply fetch_loop_cases in H.
  destruct H as [[_ H]|[_ [[Hst H]|[(Hst & s1 & e & H & Hreq & Herr)
                     |[(new & [Hst _] & H)|(new & [Hst _] & H)]]]]].
  - inversion H; subst. exists []. rewrite app_nil_r. split; [reflexivity|].
    left. split; [constructor | reflexivity].
  - inversion H; subst. eexists. split; [reflexivity|]. right.
    exists [], (page_params cls sz (cur_page s)). repeat split; try assumption.
    constructor.
  - inversion H; subst. eexists. split; [exact Hreq|]. left.
    split; [|exact Herr]. now repeat constructor.
  - inversion H; subst. eexists. split; [reflexivity|]. left.
    split; [|reflexivity]. now repeat constructor.
  - apply IH in H as (extra & Hreq & Hcases). simpl in Hreq, Hcases.
    exists (page_params cls sz (cur_page s) :: extra).
    split; [now rewrite Hreq, <- app_assoc|].
    destruct Hcases as [[Hall Herr]|(init & req & -> & Hall & Hbad & Herr & Hr)].
    + left. split; [now constructor | exact Herr].
    + right. exists (page_params cls sz (cur_page s) :: init), req.
      repeat split; try assumption. now constructor.
Qed.

(** X2: a call shows at most one diagnostic, and which one is decided by
    the last request alone.  Either every request was answered 200 and
    nothing is shown; or every request but the last was answered 200, the
    last one was not, its status is the one diagnostic shown, and the call
    still returns a list. *)
Theorem fetch_diagnostics (fuel : nat) (api : endpoint) (cls : string)
    (sz max_records : Z) (out : fetch_outcome) :
  fetch_artifacts_by_classification fuel api cls sz max_records = Some out ->
  (Forall (fun req => status_code (api req) = 200) (issued out)
   /\ diagnostics out = [])
  \/ (exists init req,
        issued out = init ++ [req]
        /\ Forall (fun req => status_code (api req) = 200) init
        /\ status_code (api req) <> 200
        /\ diagnostics out = [status_code (api req)]
        /\ exists l, returned out = Ok l).
Proof.
  unfold fetch_artifacts_by_classification.
  destruct (fetch_loop _ _ _ _ _ _) as [[s r]|] eqn:Hloop; [|discriminate].
  intros H. inversion H; subst out; clear H. simpl.
  apply fetch_loop_diagnostics in Hloop as (extra & Hreq & Hcases).
  simpl in Hreq, Hcases. rewrite Hreq.
  destruct Hcases as [[Hall Herr]|(init & req & -> & Hall & Hbad & Herr & ->)].
  - left. now split.
  - right. exists init, req. repeat split; try assumption.
    eexists. reflexivity.
Qed.

Lemma fetch_diagnostics_witness :
  fetch_artifacts_by_classification 5 flaky_api "Coins" 2 250
    = Some {| returned := Ok [coin 1; coin 2; coin 3; coin 4];
              issued := page_requests "Coins" 2 1 3;
              diagnostics := [503] |}
  /\ ((Forall (fun req => status_code (flaky_api req) = 200)
              (page_requests "Coins" 2 1 3)
       /\ [503] = [])
      \/ (exists init req,
            page_requests "Coins" 2 1 3 = init ++ [req]
            /\ Forall (fun req => status_code (flaky_api req) = 200) init
            /\ status_code (flaky_api req) <> 200
            /\ [503] = [status_code (flaky_api req)]
            /\ exists l, Ok [coin 1; coin 2; coin 3; coin 4] = Ok l)).
Proof.
  split; [reflexivity|].
  exact (fetch_diagnostics 5 flaky_api "Coins" 2 250 _ eq_refl).
Defined.

Lemma fetch_loop_malformed (fuel : nat) (api : endpoint) (cls : string)
    (sz max_records : Z) (s : fetch_state) (e : exn) :
  Z.of_nat (length (records s)) < max_records ->
  malformed_page (api (page_params cls sz (cur_page s))) e ->
  exists s',
    fetch_loop (S fuel) api cls sz max_records s = Some (s', Raise e)
    /\ requests_sent s' = requests_sent s ++ [page_params cls sz (cur_page s)]
    /\ st_errors s' = st_errors s.
Proof.
  intros Hlt [Hst Hbad]. rewrite fetch_loop_unfold.
  destruct (Z.ltb_spec (Z.of_nat (length (records s))) max_records); [|lia].
  cbv zeta. rewrite Hst. simpl negb. cbv iota.
  destruct Hbad as [Hjson|(data & Hjson & [Hrecs|(new & Hrecs & Hnext)])];
    rewrite Hjson; [|rewrite Hrecs|rewrite Hrecs, Hnext];
    eexists; repeat split.
Qed.

(** X3: a page answered with status 200 that cannot be read (a body that is
    not JSON or not an object, [records] that cannot be iterated, [info]
    that is not an object) ends the call with the exception: unlike after a
    status other than 200, nothing of what the earlier pages brought is
    returned, and no diagnostic is shown. *)
Theorem fetch_raises_on_malformed_page (api : endpoint) (cls : string)
    (sz max_records : Z) (pages : list (list value)) (e : exn) (fuel : nat) :
  continues api cls sz 1 pages ->
  Z.of_nat (length (concat pages)) < max_records ->
  malformed_page (api (page_params cls sz (1 + Z.of_nat (length pages)))) e ->
  (length pages < fuel)%nat ->
  fetch_artifacts_by_classification fuel api cls sz max_records
  = Some {| returned := Raise e;
            issued := page_requests cls sz 1 (S (length pages));
            diagnostics := [] |}.
Proof.
  intros Hpages Hlen Hbad Hfuel. unfold fetch_artifacts_by_classification.
  replace fuel with (length pages + S (fuel - S (length pages)))%nat by lia.
  rewrite (fetch_loop_continues _ _ _ _ _ _ Hpages); [|reflexivity|exact Hlen].
  destruct (fetch_loop_malformed (fuel - S (length pages)) api cls sz max_records
              (advance cls sz fetch_init pages) e) as (s' & -> & Hreq & Herr);
    [exact Hlen | exact Hbad |].
  rewrite Hreq, Herr, page_requests_snoc. reflexivity.
Qed.

Lemma fetch_raises_on_malformed_page_witness :
  continues broken_api "Coins" 2 1 [[coin 1; coin 2]]
  /\ malformed_page (broken_api (page_params "Coins" 2 2)) TypeError
  /\ fetch_artifacts_by_classification 2 broken_api "Coins" 2 250
     = Some {| returned := Raise TypeError;
               issued := [page_params "Coins" 2 1; page_params "Coins" 2 2];
               diagnostics := [] |}.
Proof.
  assert (Hpages : continues broken_api "Coins" 2 1 [[coin 1; coin 2]]).
  { constructor; [|constructor].
    split; [reflexivity|]. do 2 eexists. repeat split; reflexivity. }
  assert (Hbad : malformed_page (broken_api (page_params "Coins" 2 2)) TypeError).
  { split; [reflexivity|]. right. eexists. split; [reflexivity|].
    left. reflexivity. }
  split; [exact Hpages|]. split; [exact Hbad|].
  refine (fetch_raises_on_malformed_page broken_api "Coins" 2 250
            [[coin 1; coin 2]] TypeError 2 Hpages _ Hbad _);
    simpl; lia.
Defined.

(** ** Remote Fetcher: asking for fewer records *)

Lemma fetch_loop_extends (api : endpoint) (cls : string) (sz max_records : Z)
    (fuel : nat) :
  forall (s s' : fetch_state) (r : result unit),
    fetch_loop fuel api cls sz max_records s = Some (s', r) ->
    (exists more, records s' = records s ++ more)
    /\ exists later, requests_sent s' = requests_sent s ++ later.
Proof.
  induction fuel as [|fuel IH]; intros s s' r H; [discriminate|].
  rewrite fetch_loop_unfold in H.
  destruct (_ <? _); [|inversion H; subst; split; exists []; now rewrite app_nil_r].
  cbv zeta in H.
  destruct (negb _);
    [inversion H; subst; simpl; split; eexists; [symmetry; apply app_nil_r | reflexivity]|].
  destruct (json _) as [data|e];
    [|inversion H; subst; simpl; split; eexists; [symmetry; apply app_nil_r | reflexivity]].
  destruct (page_records data) as [new|e];
    [|inversion H; subst; simpl; split; eexists; [symmetry; apply app_nil_r | reflexivity]].
  destruct (page_next data) as [next|e];
    [|inversion H; subst; simpl; split; eexists; reflexivity].
  destruct (negb _); [inversion H; subst; simpl; split; eexists; reflexivity|].
  apply IH in H as [[more Hmore] [later Hlater]]. simpl in Hmore, Hlater.
  split; eexists; [rewrite Hmore | rewrite Hlater]; now rewrite <- app_assoc.
Qed.

(** Two runs from the same state with limits [m <= m']: either they end in
    the same way, or the first one stopped at its limit and the second one
    went on from there. *)
Lemma fetch_loop_limits (api : endpoint) (cls : string) (sz m m' : Z) :
  m <= m' ->
  forall (fuel fuel' : nat) (s s1 s2 : fetch_state) (r1 r2 : result unit),
    fetch_loop fuel api cls sz m s = Some (s1, r1) ->
    fetch_loop fuel' api cls sz m' s = Some (s2, r2) ->
    (s1 = s2 /\ r1 = r2)
    \/ (m <= Z.of_nat (length (records s1)) /\ r1 = Ok tt
        /\ (exists more, records s2 = records s1 ++ more)
        /\ exists later, requests_sent s2 = requests_sent s1 ++ later).
Proof.
  intros Hm. induction fuel as [|fuel IH]; intros fuel' s s1 s2 r1 r2 H1 H2;
    [discriminate|].
  rewrite fetch_loop_unfold in H1.
  destruct (Z.ltb_spec (Z.of_nat (length (records s))) m) as [Hlt|Hge].
  - destruct fuel' as [|fuel']; [discriminate|].
    rewrite fetch_loop_unfold in H2.
    destruct (Z.ltb_spec (Z.of_nat (length (records s))) m'); [|lia].
    cbv zeta in H1, H2.
    destruct (negb _); [left; split; congruence|].
    destruct (json _) as [data|e]; [|left; split; congruence].
    destruct (page_records data) as [new|e]; [|left; split; congruence].
    destruct (page_next data) as [next|e]; [|left; split; congruence].
    destruct (negb _); [left; split; congruence|].
    exact (IH _ _ _ _ _ _ H1 H2).
  - inversion H1; subst s1 r1. right. split; [exact Hge|]. split; [reflexivity|].
    exact (fetch_loop_extends _ _ _ _ _ _ _ _ H2).
Qed.

(** X4: lowering [max_records] only cuts the result.  Against the same
    endpoint, the list returned for a limit [m] is the first [m] records of
    the list returned for any larger limit, and the requests issued for
    [m] are the first of those issued for the larger one. *)
Theorem fetch_smaller_limit_is_prefix (api : endpoint) (cls : string)
    (sz m m' : Z) (fuel fuel' : nat) (out out' : fetch_outcome)
    (l l' : list value) :
  0 <= m <= m' ->
  fetch_artifacts_by_classification fuel api cls sz m = Some out ->
  fetch_artifacts_by_classification fuel' api cls sz m' = Some out' ->
  returned out = Ok l ->
  returned out' = Ok l' ->
  l = firstn (Z.to_nat m) l'
  /\ exists later, issued out' = issued out ++ later.
Proof.
  intros Hm Hrun Hrun' Hret Hret'.
  unfold fetch_artifacts_by_classification in Hrun, Hrun'.
  destruct (fetch_loop fuel _ _ _ _ _) as [[s1 r1]|] eqn:H1; [|discriminate].
  destruct (fetch_loop fuel' _ _ _ _ _) as [[s2 r2]|] eqn:H2; [|discriminate].
  inversion Hrun; subst out; clear Hrun.
  inversion Hrun'; subst out'; clear Hrun'. simpl in *.
  destruct r1 as [[]|e]; [|discriminate]. destruct r2 as [[]|e]; [|discriminate].
  inversion Hret; subst l. inversion Hret'; subst l'.
  rewrite !py_slice_to_nonneg by lia.
  destruct (fetch_loop_limits api cls sz m m' (proj2 Hm) _ _ _ _ _ _ _ H1 H2)
    as [[-> _]|(Hfull & _ & [more Hmore] & [later Hlater])].
  - split; [|exists []; now rewrite app_nil_r].
    rewrite take_take. f_equal. lia.
  - split; [|exists later; exact Hlater].
    rewrite Hmore, take_take, take_app_le by lia. f_equal. lia.
Qed.

Lemma fetch_smaller_limit_is_prefix_witness :
  0 <= 3 <= 250
  /\ fetch_artifacts_by_classification 4 coins_api "Coins" 2 3
     = Some {| returned := Ok [coin 1; coin 2; coin 3];
               issued := page_requests "Coins" 2 1 2;
               diagnostics := [] |}
  /\ fetch_artifacts_by_classification 4 coins_api "Coins" 2 250
     = Some {| returned := Ok [coin 1; coin 2; coin 3; coin 4; coin 5];
               issued := page_requests "Coins" 2 1 3;
               diagnostics := [] |}
  /\ [coin 1; coin 2; coin 3]
     = firstn (Z.to_nat 3) [coin 1; coin 2; coin 3; coin 4; coin 5]
  /\ exists later,
       page_requests "Coins" 2 1 3 = page_requests "Coins" 2 1 2 ++ later.
Proof.
  assert (Hm : 0 <= 3 <= 250) by lia.
  split; [exact Hm|]. split; [reflexivity|]. split; [reflexivity|].
  exact (fetch_smaller_limit_is_prefix coins_api "Coins" 2 3 250 4 4 _ _ _ _
           Hm eq_refl eq_refl eq_refl eq_refl).
Defined.

(** ** Remote Fetcher: how many requests *)

Lemma fetch_loop_request_count (api : endpoint) (cls : string)
    (sz max_records : Z) :
  (forall p new,
      continuing_page (api (page_params cls sz p)) new ->
      sz <= Z.of_nat (length new)) ->
  forall (fuel : nat) (s s' : fetch_state) (r : result unit),
    fetch_loop fuel api cls sz max_records s = Some (s', r) ->
    exists extra,
      requests_sent s' = requests_sent s ++ extra
      /\ (extra = []
          \/ Z.of_nat (length (records s)) + (Z.of_nat (length extra) - 1) * sz
             < max_records).
Proof.
  intros Hfull. induction fuel as [|fuel IH]; intros s s' r H; [discriminate|].
  apply fetch_loop_cases in H.
  destruct H as [[_ H]|[Hlt [[_ H]|[(_ & s1 & e & H & Hreq & _)
                     |[(new & _ & H)|(new & Hpage & H)]]]]].
  - inversion H; subst. exists []. split; [now rewrite app_nil_r | now left].
  - inversion H; subst. eexists. split; [reflexivity|]. right. simpl. lia.
  - inversion H; subst. eexists. split; [exact Hreq|]. right. simpl. lia.
  - inversion H; subst. eexists. split; [reflexivity|]. right. simpl. lia.
  - apply Hfull in Hpage. apply IH in H as (extra & Hreq & Hcount).
    simpl in Hreq, Hcount. rewrite app_nil_r, length_app in Hcount.
    exists (page_params cls sz (cur_page s) :: extra).
    split; [now rewrite Hreq, <- app_assoc|]. right.
    destruct Hcount as [->|Hcount]; [simpl; lia|].
    change (length (page_params cls sz (cur_page s) :: extra))
      with (S (length extra)).
    replace (Z.of_nat (S (length extra)) - 1)
      with ((Z.of_nat (length extra) - 1) + 1) by lia.
    rewrite Z.mul_add_distr_r. lia.
Qed.

(** X5: against an endpoint whose pages that announce a next page are full
    (at least [size] records each), the number of requests of a call is
    bounded by [max_records] and [size]: either no request is issued, or
    the requests before the last one, at [size] records each, stay below
    [max_records]. *)
Theorem fetch_request_count (fuel : nat) (api : endpoint) (cls : string)
    (sz max_records : Z) (out : fetch_outcome) :
  (forall p new,
      continuing_page (api (page_params cls sz p)) new ->
      sz <= Z.of_nat (length new)) ->
  fetch_artifacts_by_classification fuel api cls sz max_records = Some out ->
  issued out = []
  \/ (Z.of_nat (length (issued out)) - 1) * sz < max_records.
Proof.
  intros Hfull. unfold fetch_artifacts_by_classification.
  destruct (fetch_loop _ _ _ _ _ _) as [[s r]|] eqn:Hloop; [|discriminate].
  intros H. inversion H; subst out; clear H. simpl.
  apply (fetch_loop_request_count _ _ _ _ Hfull) in Hloop
    as (extra & Hreq & Hcount).
  simpl in Hreq, Hcount. rewrite Hreq.
  destruct Hcount as [->|Hcount]; [now left | right; lia].
Qed.

Lemma fetch_request_count_witness :
  (forall p new,
      continuing_page (coins_api (page_params "Coins" 2 p)) new ->
      2 <= Z.of_nat (length new))
  /\ fetch_artifacts_by_classification 4 coins_api "Coins" 2 3
     = Some {| returned := Ok [coin 1; coin 2; coin 3];
               issued := page_requests "Coins" 2 1 2;
               diagnostics := [] |}
  /\ (page_requests "Coins" 2 1 2 = []
      \/ (Z.of_nat (length (page_requests "Coins" 2 1 2)) - 1) * 2 < 3).
Proof.
  assert (Hfull : forall p new,
    continuing_page (coins_api (page_params "Coins" 2 p)) new ->
    2 <= Z.of_nat (length new)).
  { intros p new (Hst & data & next & Hjson & Hrecs & Hnext & Htruthy).
    unfold coins_api in *. simpl in *.
    destruct (p =? 1);
      [inversion Hjson; subst; inversion Hrecs; subst; simpl; lia|].
    destruct (p =? 2);
      [inversion Hjson; subst; inversion Hrecs; subst; simpl; lia|].
    destruct (p =? 3); [|discriminate].
    inversion Hjson; subst; inversion Hnext; subst; discriminate. }
  split; [exact Hfull|]. split; [reflexivity|].
  exact (fetch_request_count 4 coins_api "Coins" 2 3 _ Hfull eq_refl).
Defined.

(** ** Record Transformer: errors and batches *)

Lemma color_loop_shift (rec : dict) (cs : list value) (acc : list dict) :
  for_each (fun acc c => row ← color_row rec c; Ok (acc ++ [row])) acc cs
  = match for_each (fun acc c => row ← color_row rec c; Ok (acc ++ [row])) [] cs with
    | Ok rows => Ok (acc ++ rows)
    | Raise e => Raise e
    end.
Proof.
  revert acc. induction cs as [|c cs IH]; intros acc; simpl.
  - now rewrite app_nil_r.
  - unfold_result. destruct (color_row rec c) as [row|e]; [|reflexivity].
    rewrite (IH (acc ++ [row])), (IH [row]).
    destruct (for_each _ [] cs) as [rows|e]; [|reflexivity].
    simpl. now rewrite <- app_assoc.
Qed.

Lemma color_loop_error (rec : dict) (cs : list value) (acc : list dict) :
  forallb is_dict cs = false ->
  for_each (fun acc c => row ← color_row rec c; Ok (acc ++ [row])) acc cs
  = Raise AttributeError.
Proof.
  revert acc.
  induction cs as [|c cs IH]; intros acc H; simpl in *; [discriminate|].
  unfold_result. destruct c; try reflexivity.
  simpl in *. now apply IH.
Qed.

Lemma transform_record_shift (st : transform_state) (rec : dict) :
  transform_record st rec
  = match transform_record empty_state rec with
    | Ok d => Ok (state_app st d)
    | Raise e => Raise e
    end.
Proof.
  unfold transform_record, empty_state.
  destruct (py_iter _) as [cs|e]; [|reflexivity].
  pose proof (color_loop_shift rec cs (colors_list st)) as Hshift.
  unfold_result. simpl. rewrite Hshift.
  destruct (for_each _ [] cs) as [rows|e]; reflexivity.
Qed.

Lemma state_app_assoc (a b c : transform_state) :
  state_app (state_app a b) c = state_app a (state_app b c).
Proof. unfold state_app. simpl. now rewrite <- !app_assoc. Qed.

Lemma state_app_empty_l (d : transform_state) : state_app empty_state d = d.
Proof. now destruct d. Qed.

Lemma transform_loop_shift (recs : list dict) (st : transform_state) :
  for_each transform_record st recs
  = match for_each transform_record empty_state recs with
    | Ok d => Ok (state_app st d)
    | Raise e => Raise e
    end.
Proof.
  revert st. induction recs as [|rec recs IH]; intros st; simpl.
  - unfold state_app. simpl. rewrite !app_nil_r. now destruct st.
  - rewrite (transform_record_shift st rec).
    destruct (transform_record empty_state rec) as [d1|e]; [|reflexivity].
    rewrite (IH (state_app st d1)), (IH d1).
    destruct (for_each transform_record empty_state recs) as [d2|e];
      [|reflexivity].
    now rewrite state_app_assoc.
Qed.

(** X6: transforming a list in two batches gives the same as transforming
    it at once: the three lists of the whole are those of the first part
    followed by those of the second, and the whole raises what the first
    part raises or else what the second part raises. *)
Theorem transform_records_app (a b : list dict) :
  transform_records (a ++ b)
  = match transform_records a with
    | Raise e => Raise e
    | Ok (md1, me1, co1) =>
        match transform_records b with
        | Raise e => Raise e
        | Ok (md2, me2, co2) => Ok (md1 ++ md2, me1 ++ me2, co1 ++ co2)
        end
    end.
Proof.
  unfold transform_records. fold empty_state. rewrite for_each_app.
  destruct (for_each transform_record empty_state a) as [d1|e]; [|reflexivity].
  rewrite (transform_loop_shift b d1). unfold_result.
  destruct (for_each transform_record empty_state b) as [d2|e]; reflexivity.
Qed.

Lemma transform_record_error (st : transform_state) (rec : dict) :
  match record_error rec with
  | None => exists st', transform_record st rec = Ok st'
  | Some e => transform_record st rec = Raise e
  end.
Proof.
  unfold record_error, transform_record. unfold_result.
  destruct (py_iter _) as [cs|e]; [|reflexivity].
  destruct (forallb is_dict cs) eqn:Hcs.
  - destruct (color_loop_total rec cs (colors_list st) Hcs) as [acc' Hacc].
    unfold_result. rewrite Hacc. eexists. reflexivity.
  - pose proof (color_loop_error rec cs (colors_list st) Hcs) as Herr.
    unfold_result. now rewrite Herr.
Qed.

Lemma transform_loop_first_error (recs : list dict) (st : transform_state) :
  match first_error recs with
  | None => exists st', for_each transform_record st recs = Ok st'
  | Some e => for_each transform_record st recs = Raise e
  end.
Proof.
  revert st. induction recs as [|rec recs IH]; intros st; simpl.
  - eexists. reflexivity.
  - pose proof (transform_record_error st rec) as Hrec.
    destruct (record_error rec) as [e|].
    + now rewrite Hrec.
    + destruct Hrec as [st' ->]. apply IH.
Qed.

(** X7: [transform_records] returns its three lists exactly when no record
    has colors that cannot be iterated or a color entry that is not an
    object; otherwise it raises, and what it raises is decided by the first
    such record: [TypeError] for the colors, [AttributeError] for the
    entry. *)
Theorem transform_records_first_error (recs : list dict) :
  match first_error recs with
  | None => exists out, transform_records recs = Ok out
  | Some e => transform_records recs = Raise e
  end.
Proof.
  unfold transform_records. fold empty_state.
  pose proof (transform_loop_first_error recs empty_state) as Hloop.
  destruct (first_error recs) as [e|].
  - now rewrite Hloop.
  - destruct Hloop as [st ->]. eexists. reflexivity.
Qed.

Lemma transform_raw_loop_objects (recs : list dict) (st : transform_state) :
  for_each transform_raw_record st (map VDict recs)
  = for_each transform_record st recs.
Proof.
  revert st. induction recs as [|rec recs IH]; intros st; simpl; [reflexivity|].
  destruct (transform_record st rec); [apply IH | reflexivity].
Qed.

Lemma transform_raw_objects (recs : list dict) :
  transform_raw (map VDict recs) = transform_records recs.
Proof.
  unfold transform_raw, transform_records.
  now rewrite transform_raw_loop_objects.
Qed.

(** X8: on the list the fetcher returns, a record that is not a JSON object
    makes the transformer raise [AttributeError] when the records before it
    are objects that transform, whatever comes after it; and on a list of
    objects it does what [transform_records] does on them. *)
Theorem transform_raw_non_object (pre : list dict) (v : value)
    (post : list value) :
  is_dict v = false ->
  first_error pre = None ->
  transform_raw (map VDict pre ++ v :: post) = Raise AttributeError
  /\ transform_raw (map VDict pre) = transform_records pre.
Proof.
  intros Hv Hpre. split; [|apply transform_raw_objects].
  unfold transform_raw. rewrite for_each_app, transform_raw_loop_objects.
  fold empty_state.
  pose proof (transform_loop_first_error pre empty_state) as Hok.
  rewrite Hpre in Hok. destruct Hok as [st ->].
  simpl. destruct v; try reflexivity. discriminate.
Qed.

Lemma transform_raw_non_object_witness :
  is_dict (VStr "not a record") = false
  /\ first_error [record_42] = None
  /\ transform_raw (map VDict [record_42] ++ VStr "not a record" :: [coin 1])
     = Raise AttributeError
  /\ transform_raw (map VDict [record_42]) = transform_records [record_42].
Proof.
  split; [reflexivity|]. split; [reflexivity|].
  exact (transform_raw_non_object [record_42] (VStr "not a record") [coin 1]
           eq_refl eq_refl).
Defined.

(** ** Idempotent Loader: what a call touches *)

Lemma exec_insert_metadata_frame (eng : engine) (r : dict) (db db' : store) :
  exec_insert_metadata eng r db = Ok db' ->
  artifact_media db' = artifact_media db
  /\ artifact_colors db' = artifact_colors db.
Proof.
  unfold exec_insert_metadata. unfold_result.
  destruct (bind_params _) as [[|key rest]|e]; intros H; try discriminate.
  - now inversion H.
  - destruct (rowid_of _ _ key) as [rowid|e]; [|discriminate].
    destruct (artifact_metadata db !! rowid); now inversion H.
Qed.

Lemma run_insert_metadata_frame (eng : engine) (rows : list dict)
    (db db' : store) :
  run_statements (exec_insert_metadata eng) rows db = Ok db' ->
  artifact_media db' = artifact_media db
  /\ artifact_colors db' = artifact_colors db.
Proof.
  unfold run_statements. revert db.
  induction rows as [|r rows IH]; intros db H; simpl in H.
  - now inversion H.
  - destruct (exec_insert_metadata eng r db) as [db1|e] eqn:Hr; [|discriminate].
    apply exec_insert_metadata_frame in Hr as [Hm Hc].
    apply IH in H as [Hm' Hc']. split; congruence.
Qed.

Lemma run_insert_media_stored (eng : engine) (rows : list dict) (db db' : store) :
  run_statements (exec_insert_media eng) rows db = Ok db' ->
  exists stored,
    db' = add_media db stored
    /\ Forall2 (stored_as eng artifact_media_columns media_params) rows stored.
Proof.
  unfold run_statements. revert db.
  induction rows as [|r rows IH]; intros db H; simpl in H.
  - inversion H; subst. exists []. split; [|constructor].
    unfold add_media. rewrite app_nil_r. now destruct db'.
  - destruct (exec_insert_media eng r db) as [db1|e] eqn:Hr; [|discriminate].
    unfold exec_insert_media in Hr. unfold_result.
    destruct (bind_params (media_params r)) as [ps|e] eqn:Hps; [|discriminate].
    inversion Hr; subst db1; clear Hr.
    apply IH in H as (stored & -> & Hstored).
    exists (store_row eng artifact_media_columns ps :: stored). split.
    + unfold add_media. simpl. now rewrite <- app_assoc.
    + constructor; [now exists ps | assumption].
Qed.

Lemma run_insert_colors_stored (eng : engine) (rows : list dict) (db db' : store) :
  run_statements (exec_insert_colors eng) rows db = Ok db' ->
  exists stored,
    db' = add_colors db stored
    /\ Forall2 (stored_as eng artifact_colors_columns colors_params) rows stored.
Proof.
  unfold run_statements. revert db.
  induction rows as [|r rows IH]; intros db H; simpl in H.
  - inversion H; subst. exists []. split; [|constructor].
    unfold add_colors. rewrite app_nil_r. now destruct db'.
  - destruct (exec_insert_colors eng r db) as [db1|e] eqn:Hr; [|discriminate].
    unfold exec_insert_colors in Hr. unfold_result.
    destruct (bind_params (colors_params r)) as [ps|e] eqn:Hps; [|discriminate].
    inversion Hr; subst db1; clear Hr.
    apply IH in H as (stored & -> & Hstored).
    exists (store_row eng artifact_colors_columns ps :: stored). split.
    + unfold add_colors. simpl. now rewrite <- app_assoc.
    + constructor; [now exists ps | assumption].
Qed.

(** X9: a loader only ever changes its own table.  Whatever the rows and
    however the call ends, [insert_metadata] leaves the media and color
    tables as they were, [insert_media] the metadata and color tables, and
    [insert_colors] the metadata and media tables. *)
Theorem loaders_touch_own_table (eng : engine) (rows : list dict) (db : store) :
  (artifact_media (fst (insert_metadata eng rows db)) = artifact_media db
   /\ artifact_colors (fst (insert_metadata eng rows db)) = artifact_colors db)
  /\ (artifact_metadata (fst (insert_media eng rows db)) = artifact_metadata db
      /\ artifact_colors (fst (insert_media eng rows db)) = artifact_colors db)
  /\ (artifact_metadata (fst (insert_colors eng rows db)) = artifact_metadata db
      /\ artifact_media (fst (insert_colors eng rows db)) = artifact_media db).
Proof.
  unfold insert_metadata, insert_media, insert_colors. rewrite !loader_spec.
  split; [|split].
  - destruct (run_statements _ rows db) as [db'|e] eqn:Hrun; simpl;
      [|split; reflexivity].
    exact (run_insert_metadata_frame eng rows db db' Hrun).
  - destruct (run_statements (exec_insert_media eng) rows db) as [db'|e] eqn:Hrun;
      simpl; [|split; reflexivity].
    apply run_insert_media_stored in Hrun as (stored & -> & _). now split.
  - destruct (run_statements (exec_insert_colors eng) rows db) as [db'|e] eqn:Hrun;
      simpl; [|split; reflexivity].
    apply run_insert_colors_stored in Hrun as (stored & -> & _). now split.
Qed.

(** X10: a call of [insert_media] or [insert_colors] that succeeds appends
    to its table, after the rows already there and in the order of the
    input, exactly one stored row per input row, and changes nothing else
    in the store. *)
Theorem insert_media_colors_append (eng : engine) (rows : list dict)
    (db db' : store) :
  (insert_media eng rows db = (db', Ok tt) ->
   exists stored,
     db' = add_media db stored
     /\ length stored = length rows
     /\ Forall2 (stored_as eng artifact_media_columns media_params) rows stored)
  /\ (insert_colors eng rows db = (db', Ok tt) ->
      exists stored,
        db' = add_colors db stored
        /\ length stored = length rows
        /\ Forall2 (stored_as eng artifact_colors_columns colors_params)
                   rows stored).
Proof.
  split; intros H; apply loader_ok_inv in H.
  - apply run_insert_media_stored in H as (stored & -> & Hstored).
    exists stored. repeat split; [|assumption].
    symmetry. exact (Forall2_length _ _ _ Hstored).
  - apply run_insert_colors_stored in H as (stored & -> & Hstored).
    exists stored. repeat split; [|assumption].
    symmetry. exact (Forall2_length _ _ _ Hstored).
Qed.

Lemma insert_media_colors_append_witness :
  insert_media plain_engine [bowl_media; bowl_media] bowl_store
    = (add_media bowl_store
         [ [SInteger 1; SInteger 2; SNull; SNull; SNull; SNull; SNull];
           [SInteger 1; SInteger 2; SNull; SNull; SNull; SNull; SNull] ],
       Ok tt)
  /\ (exists stored,
        add_media bowl_store
          [ [SInteger 1; SInteger 2; SNull; SNull; SNull; SNull; SNull];
            [SInteger 1; SInteger 2; SNull; SNull; SNull; SNull; SNull] ]
        = add_media bowl_store stored
        /\ length stored = length [bowl_media; bowl_media]
        /\ Forall2 (stored_as plain_engine artifact_media_columns media_params)
                   [bowl_media; bowl_media] stored)
  /\ insert_colors plain_engine [bowl_color] bowl_store
     = (add_colors bowl_store
          [[SInteger 1; SText "Red"; SNull; SNull; SReal (1 # 4); SNull]],
        Ok tt)
  /\ exists stored,
       add_colors bowl_store
         [[SInteger 1; SText "Red"; SNull; SNull; SReal (1 # 4); SNull]]
       = add_colors bowl_store stored
       /\ length stored = length [bowl_color]
       /\ Forall2 (stored_as plain_engine artifact_colors_columns colors_params)
                  [bowl_color] stored.
Proof.
  split; [reflexivity|]. split.
  - exact (proj1 (insert_media_colors_append plain_engine
                    [bowl_media; bowl_media] bowl_store _) eq_refl).
  - split; [reflexivity|].
    exact (proj2 (insert_media_colors_append plain_engine
                    [bowl_color] bowl_store _) eq_refl).
Defined.

(** ** Idempotent Loader: rows whose id is already stored *)

Lemma exec_insert_metadata_bound (eng : engine) (r : dict) (db db' : store) :
  exec_insert_metadata eng r db = Ok db' ->
  exists ps, bind_params (metadata_params r) = Ok ps.
Proof.
  unfold exec_insert_metadata. unfold_result.
  destruct (bind_params _) as [ps|e]; [now exists ps | discriminate].
Qed.

(** A statement for a row whose integer id is stored does nothing. *)
Lemma exec_insert_metadata_stored (eng : engine) (r : dict) (db : store)
    (n : Z) (ps : list sqlval) :
  get r "id" = VInt n ->
  bind_params (metadata_params r) = Ok ps ->
  is_Some (artifact_metadata db !! n) ->
  exec_insert_metadata eng r db = Ok db.
Proof.
  intros Hid Hps [row Hrow].
  destruct (metadata_params_bind_inv r n ps Hid Hps) as [rest ->].
  now rewrite (exec_insert_metadata_key eng r db n rest Hps), Hrow.
Qed.

Lemma run_insert_metadata_bound (eng : engine) (rows : list dict)
    (db db' : store) :
  run_statements (exec_insert_metadata eng) rows db = Ok db' ->
  Forall (fun r => exists ps, bind_params (metadata_params r) = Ok ps) rows.
Proof.
  unfold run_statements. revert db.
  induction rows as [|r rows IH]; intros db H; simpl in H; [constructor|].
  destruct (exec_insert_metadata eng r db) as [db1|e] eqn:Hr; [|discriminate].
  constructor; [exact (exec_insert_metadata_bound _ _ _ _ Hr) | exact (IH _ H)].
Qed.

Lemma run_insert_metadata_stored (eng : engine) (rows : list dict) (db : store) :
  Forall (fun r => exists n ps,
            get r "id" = VInt n
            /\ bind_params (metadata_params r) = Ok ps
            /\ is_Some (artifact_metadata db !! n)) rows ->
  run_statements (exec_insert_metadata eng) rows db = Ok db.
Proof.
  unfold run_statements. induction 1 as [|r rows (n & ps & Hid & Hps & Hn) _ IH];
    simpl; [reflexivity|].
  now rewrite (exec_insert_metadata_stored eng r db n ps Hid Hps Hn).
Qed.

(** X11: loading again a batch that was loaded changes nothing.  When
    every row of a batch has an integer id and [insert_metadata] succeeded
    on it, calling it again with the same batch on the resulting store
    succeeds and leaves that store exactly as it is. *)
Theorem insert_metadata_batch_idempotent (eng : engine) (rows : list dict)
    (db db1 : store) :
  forallb has_int_id rows = true ->
  insert_metadata eng rows db = (db1, Ok tt) ->
  insert_metadata eng rows db1 = (db1, Ok tt).
Proof.
  intros Hids Hrun. apply loader_ok_inv in Hrun.
  rewrite insert_metadata_spec.
  rewrite (run_insert_metadata_stored eng rows db1); [reflexivity|].
  pose proof (run_insert_metadata_bound eng rows db db1 Hrun) as Hbound.
  apply Forall_forall. intros r Hin.
  rewrite Forall_forall in Hbound. destruct (Hbound r Hin) as [ps Hps].
  apply list_elem_of_In in Hin.
  rewrite forallb_forall in Hids. specialize (Hids r Hin).
  unfold has_int_id in Hids. destruct (get r "id") as [| |n| | | |] eqn:Hid;
    try discriminate.
  exists n, ps. repeat split; try assumption.
  exact (run_insert_metadata_present eng rows db db1 r n Hid Hin Hrun).
Qed.

Lemma insert_metadata_batch_idempotent_witness :
  forallb has_int_id [jug_row; bowl_row; bowl_row_again] = true
  /\ insert_metadata plain_engine [jug_row; bowl_row; bowl_row_again] empty_store
     = (fst (insert_metadata plain_engine [jug_row; bowl_row] empty_store), Ok tt)
  /\ insert_metadata plain_engine [jug_row; bowl_row; bowl_row_again]
       (fst (insert_metadata plain_engine [jug_row; bowl_row] empty_store))
     = (fst (insert_metadata plain_engine [jug_row; bowl_row] empty_store), Ok tt).
Proof.
  split; [reflexivity|]. split; [reflexivity|].
  exact (insert_metadata_batch_idempotent plain_engine
           [jug_row; bowl_row; bowl_row_again] empty_store _ eq_refl eq_refl).
Defined.

(** X12: the first write wins inside a batch too.  A row with an integer
    id whose fields can be bound has no effect at all on a call when its id
    is already stored or is the id of an earlier row of the same batch: the
    call does exactly what it does without that row. *)
Theorem insert_metadata_later_row_ignored (eng : engine) (pre post : list dict)
    (r : dict) (n : Z) (db : store) :
  get r "id" = VInt n ->
  forallb bindable (metadata_params r) = true ->
  is_Some (artifact_metadata db !! n)
  \/ (exists r1, In r1 pre /\ get r1 "id" = VInt n) ->
  insert_metadata eng (pre ++ r :: post) db
  = insert_metadata eng (pre ++ post) db.
Proof.
  intros Hid Hb Hseen. rewrite !insert_metadata_spec, !run_statements_app.
  destruct (run_statements (exec_insert_metadata eng) pre db) as [mid|e] eqn:Hpre;
    [|reflexivity].
  destruct (bind_params_bindable _ Hb) as (ps & Hps & _).
  assert (Hmid : is_Some (artifact_metadata mid !! n)).
  { destruct Hseen as [[row Hrow]|(r1 & Hin & Hid1)].
    - exists row. exact (run_insert_metadata_preserves eng pre db mid n row Hpre Hrow).
    - exact (run_insert_metadata_present eng pre db mid r1 n Hid1 Hin Hpre). }
  unfold run_statements at 1. simpl.
  now rewrite (exec_insert_metadata_stored eng r mid n ps Hid Hps Hmid).
Qed.

Lemma insert_metadata_later_row_ignored_witness :
  get bowl_row_again "id" = VInt 1
  /\ forallb bindable (metadata_params bowl_row_again) = true
  /\ (is_Some (artifact_metadata empty_store !! 1)
      \/ exists r1, In r1 [bowl_row] /\ get r1 "id" = VInt 1)
  /\ insert_metadata plain_engine ([bowl_row] ++ bowl_row_again :: [jug_row])
       empty_store
     = insert_metadata plain_engine ([bowl_row] ++ [jug_row]) empty_store.
Proof.
  assert (Hseen : is_Some (artifact_metadata empty_store !! 1)
                  \/ exists r1, In r1 [bowl_row] /\ get r1 "id" = VInt 1).
  { right. exists bowl_row. split; [left|]; reflexivity. }
  split; [reflexivity|]. split; [reflexivity|]. split; [exact Hseen|].
  exact (insert_metadata_later_row_ignored plain_engine [bowl_row] [jug_row]
           bowl_row_again 1 empty_store eq_refl eq_refl Hseen).
Defined.

(** ** Idempotent Loader: one call or two *)

Lemma loader_split (stmt : dict -> store -> result store) (a b : list dict)
    (db db1 : store) :
  with_connection (insert_body stmt a) db = (db1, Ok tt) ->
  with_connection (insert_body stmt (a ++ b)) db
  = match with_connection (insert_body stmt b) db1 with
    | (db2, Ok _) => (db2, Ok tt)
    | (_, Raise e) => (db, Raise e)
    end.
Proof.
  intros Ha. apply loader_ok_inv in Ha.
  rewrite !loader_spec, run_statements_app, Ha.
  now destruct (run_statements stmt b db1).
Qed.

(** X13: loading two batches in one call or in two calls.  When the first
    batch loads, one call with both batches ends like the second call would:
    with the same store when that succeeds, with the same exception when it
    fails; but on failure the single call leaves the store as it was before
    the first batch, while two calls keep the first batch. *)
Theorem insert_split_batches (eng : engine) (a b : list dict) (db db1 : store) :
  (insert_metadata eng a db = (db1, Ok tt) ->
   insert_metadata eng (a ++ b) db
   = match insert_metadata eng b db1 with
     | (db2, Ok _) => (db2, Ok tt)
     | (_, Raise e) => (db, Raise e)
     end)
  /\ (insert_media eng a db = (db1, Ok tt) ->
      insert_media eng (a ++ b) db
      = match insert_media eng b db1 with
        | (db2, Ok _) => (db2, Ok tt)
        | (_, Raise e) => (db, Raise e)
        end)
  /\ (insert_colors eng a db = (db1, Ok tt) ->
      insert_colors eng (a ++ b) db
      = match insert_colors eng b db1 with
        | (db2, Ok _) => (db2, Ok tt)
        | (_, Raise e) => (db, Raise e)
        end).
Proof. split; [|split]; apply loader_split. Qed.

Lemma insert_split_batches_witness :
  insert_metadata plain_engine [bowl_row] empty_store = (bowl_store, Ok tt)
  /\ insert_metadata plain_engine [malformed_row] bowl_store
     = (bowl_store, Raise BindError)
  /\ insert_metadata plain_engine ([bowl_row] ++ [malformed_row]) empty_store
     = (empty_store, Raise BindError).
Proof.
  split; [reflexivity|]. split; [reflexivity|].
  exact (proj1 (insert_split_batches plain_engine [bowl_row] [malformed_row]
                  empty_store bowl_store) eq_refl).
Defined.

(** ** Idempotent Loader: rows without id *)

Lemma rowids_spec (tbl : gmap Z (list sqlval)) (k : Z) :
  In k (rowids tbl) <-> is_Some (tbl !! k).
Proof.
  unfold rowids. rewrite in_map_iff. split.
  - intros ([k' row] & <- & Hin). apply list_elem_of_In in Hin.
    apply elem_of_map_to_list in Hin. now exists row.
  - intros [row Hrow]. exists (k, row). split; [reflexivity|].
    apply list_elem_of_In. now apply elem_of_map_to_list.
Qed.

Lemma fold_max_ge (k : Z) (ks : list Z) (x : Z) :
  In x (k :: ks) -> x <= fold_right Z.max k ks.
Proof.
  induction ks as [|k' ks IH]; simpl.
  - intros [->|[]]. lia.
  - intros [->|[->|Hin]].
    + specialize (IH (or_introl eq_refl)). lia.
    + lia.
    + specialize (IH (or_intror Hin)). lia.
Qed.

Lemma fold_max_in (k : Z) (ks : list Z) : In (fold_right Z.max k ks) (k :: ks).
Proof.
  induction ks as [|k' ks IH]; simpl; [now left|].
  destruct (Z.max_spec k' (fold_right Z.max k ks)) as [[_ ->]|[_ ->]].
  - destruct IH as [<-|Hin]; [now left | now right; right].
  - right. now left.
Qed.

(** The rowid given to a row without key, as long as the largest rowid is
    not in use: unused, above every rowid in use, and 1 in an empty table or
    else next to a rowid in use. *)
Lemma new_rowid_fresh (eng : engine) (tbl : gmap Z (list sqlval)) :
  (forall k, is_Some (tbl !! k) -> k < max_rowid) ->
  exists n,
    new_rowid eng tbl = Ok n
    /\ tbl !! n = None
    /\ (forall k, is_Some (tbl !! k) -> k < n)
    /\ n <= max_rowid
    /\ ((tbl = ∅ /\ n = 1) \/ is_Some (tbl !! (n - 1))).
Proof.
  intros Hbound. unfold new_rowid.
  destruct (rowids tbl) as [|k ks] eqn:Hkeys.
  - assert (Hempty : tbl = ∅).
    { apply map_to_list_empty_iff. unfold rowids in Hkeys.
      now destruct (map_to_list tbl). }
    exists 1. subst tbl. repeat split.
    + intros k [row Hrow]. now rewrite lookup_empty in Hrow.
    + unfold max_rowid. lia.
    + now left.
  - set (m := fold_right Z.max k ks).
    assert (Hm : is_Some (tbl !! m)).
    { apply rowids_spec. rewrite Hkeys. apply fold_max_in. }
    assert (Hle : forall x, is_Some (tbl !! x) -> x <= m).
    { intros x Hx. apply rowids_spec in Hx. rewrite Hkeys in Hx.
      now apply fold_max_ge. }
    pose proof (Hbound m Hm) as Hlt.
    destruct (Z.ltb_spec m max_rowid); [|lia].
    exists (m + 1). repeat split.
    + destruct (tbl !! (m + 1)) eqn:Hnext; [|reflexivity].
      assert (m + 1 <= m) by (apply Hle; eauto). lia.
    + intros x Hx. specialize (Hle x Hx). lia.
    + lia.
    + right. now replace (m + 1 - 1) with m by lia.
Qed.

Lemma metadata_params_bind_null (r : dict) (ps : list sqlval) :
  get r "id" = VNone ->
  bind_params (metadata_params r) = Ok ps ->
  exists rest, ps = SNull :: rest.
Proof.
  intros Hid Hps. unfold metadata_params in Hps.
  rewrite bind_params_cons, Hid in Hps. cbn [bind_param] in Hps.
  destruct (bind_params _) as [rest|e]; [|discriminate].
  inversion Hps. now exists rest.
Qed.

Lemma exec_insert_metadata_null (eng : engine) (r : dict) (db : store)
    (rest : list sqlval) :
  bind_params (metadata_params r) = Ok (SNull :: rest) ->
  (forall k, is_Some (artifact_metadata db !! k) -> k < max_rowid) ->
  exists n,
    exec_insert_metadata eng r db
    = Ok (put_metadata db n (store_row eng (tail artifact_metadata_columns) rest))
    /\ artifact_metadata db !! n = None
    /\ (forall k, is_Some (artifact_metadata db !! k) -> k < n)
    /\ n <= max_rowid
    /\ ((artifact_metadata db = ∅ /\ n = 1)
        \/ is_Some (artifact_metadata db !! (n - 1))).
Proof.
  intros Hps Hbound.
  destruct (new_rowid_fresh eng (artifact_metadata db) Hbound)
    as (n & Hnew & Hfresh & Habove & Hmax & Hnext).
  exists n. repeat split; try assumption.
  unfold exec_insert_metadata. rewrite Hps. unfold_result. cbn [rowid_of].
  now rewrite Hnew, Hfresh.
Qed.

(** X14: a metadata row without id is never recognised as loaded.  As long
    as the rowids in use stay below the largest one, each load of such a
    row stores it under a fresh rowid, above all rowids in use: loading the
    same row twice leaves two more rows, under consecutive rowids, and the
    rows stored before are kept. *)
Theorem insert_metadata_null_id_duplicates (eng : engine) (r : dict)
    (db : store) :
  get r "id" = VNone ->
  forallb bindable (metadata_params r) = true ->
  (forall k, is_Some (artifact_metadata db !! k) -> k < max_rowid - 1) ->
  exists n stored db1 db2,
    insert_metadata eng [r] db = (db1, Ok tt)
    /\ insert_metadata eng [r] db1 = (db2, Ok tt)
    /\ (forall k, is_Some (artifact_metadata db !! k) -> k < n)
    /\ artifact_metadata db1 = <[n := stored]> (artifact_metadata db)
    /\ artifact_metadata db2 = <[n + 1 := stored]> (artifact_metadata db1)
    /\ base.size (artifact_metadata db2)
       = S (S (base.size (artifact_metadata db))).
Proof.
  intros Hid Hb Hbound.
  destruct (bind_params_bindable _ Hb) as (ps & Hps & _).
  destruct (metadata_params_bind_null r ps Hid Hps) as [rest ->].
  set (stored := store_row eng (tail artifact_metadata_columns) rest).
  destruct (exec_insert_metadata_null eng r db rest Hps)
    as (n & Hfirst & Hfresh & Habove & Hmax & Hnext).
  { intros k Hk. specialize (Hbound k Hk). lia. }
  assert (Hn : n < max_rowid).
  { destruct Hnext as [[_ ->]|Hprev]; [unfold max_rowid; lia|].
    specialize (Hbound _ Hprev). lia. }
  fold stored in Hfirst.
  destruct (exec_insert_metadata_null eng r (put_metadata db n stored) rest Hps)
    as (n' & Hsecond & Hfresh' & Habove' & _ & Hnext').
  { intros k [row Hrow]. simpl in Hrow.
    destruct (decide (k = n)) as [->|Hne]; [exact Hn|].
    rewrite lookup_insert_ne in Hrow by congruence.
    assert (k < n) by (apply Habove; eauto). lia. }
  fold stored in Hsecond.
  assert (Hn' : n' = n + 1).
  { assert (n < n') by (apply Habove'; simpl; rewrite lookup_insert_eq; eauto).
    destruct Hnext' as [[Hempty _]|[row Hprev]].
    - simpl in Hempty. exfalso. exact (insert_non_empty _ _ _ Hempty).
    - simpl in Hprev. destruct (decide (n' - 1 = n)) as [Heq|Hne]; [lia|].
      rewrite lookup_insert_ne in Hprev by congruence.
      assert (n' - 1 < n) by (apply Habove; eauto). lia. }
  subst n'. exists n, stored, (put_metadata db n stored),
    (put_metadata (put_metadata db n stored) (n + 1) stored).
  rewrite !insert_metadata_spec. unfold run_statements. cbn [for_each].
  rewrite Hfirst, Hsecond. repeat split; try assumption.
  simpl. rewrite !map_size_insert_None; [reflexivity | assumption | assumption].
Qed.

Lemma insert_metadata_null_id_duplicates_witness :
  get anonymous_row "id" = VNone
  /\ forallb bindable (metadata_params anonymous_row) = true
  /\ (forall k, is_Some (artifact_metadata bowl_store !! k) -> k < max_rowid - 1)
  /\ exists n stored db1 db2,
       insert_metadata plain_engine [anonymous_row] bowl_store = (db1, Ok tt)
       /\ insert_metadata plain_engine [anonymous_row] db1 = (db2, Ok tt)
       /\ (forall k, is_Some (artifact_metadata bowl_store !! k) -> k < n)
       /\ artifact_metadata db1 = <[n := stored]> (artifact_metadata bowl_store)
       /\ artifact_metadata db2 = <[n + 1 := stored]> (artifact_metadata db1)
       /\ base.size (artifact_metadata db2)
          = S (S (base.size (artifact_metadata bowl_store))).
Proof.
  assert (Hbound : forall k,
    is_Some (artifact_metadata bowl_store !! k) -> k < max_rowid - 1).
  { intros k [row Hrow]. simpl in Hrow.
    apply lookup_singleton_Some in Hrow as [<- _]. unfold max_rowid. lia. }
  split; [reflexivity|]. split; [reflexivity|]. split; [exact Hbound|].
  exact (insert_metadata_null_id_duplicates plain_engine anonymous_row bowl_store
           eq_refl eq_refl Hbound).
Defined.

(** ** The three loads of one click *)

Lemma run_insert_media_replay (eng : engine) (rows : list dict)
    (stored : list (list sqlval)) :
  Forall2 (stored_as eng artifact_media_columns media_params) rows stored ->
  forall db,
    run_statements (exec_insert_media eng) rows db = Ok (add_media db stored).
Proof.
  unfold run_statements.
  induction 1 as [|r row rows stored (ps & Hps & ->) _ IH]; intros db; simpl.
  - unfold add_media. rewrite app_nil_r. now destruct db.
  - rewrite (exec_insert_media_bound eng r db ps Hps), IH.
    unfold add_media. simpl. now rewrite <- app_assoc.
Qed.

Lemma run_insert_colors_replay (eng : engine) (rows : list dict)
    (stored : list (list sqlval)) :
  Forall2 (stored_as eng artifact_colors_columns colors_params) rows stored ->
  forall db,
    run_statements (exec_insert_colors eng) rows db = Ok (add_colors db stored).
Proof.
  unfold run_statements.
  induction 1 as [|r row rows stored (ps & Hps & ->) _ IH]; intros db; simpl.
  - unfold add_colors. rewrite app_nil_r. now destruct db.
  - rewrite (exec_insert_colors_bound eng r db ps Hps), IH.
    unfold add_colors. simpl. now rewrite <- app_assoc.
Qed.

(** What a successful [load_all] is made of. *)
Lemma load_all_ok_inv (eng : engine) (metadata media colors : list dict)
    (db db' : store) :
  load_all eng metadata media colors db = (db', Ok tt) ->
  exists db1 sm sc,
    run_statements (exec_insert_metadata eng) metadata db = Ok db1
    /\ Forall2 (stored_as eng artifact_media_columns media_params) media sm
    /\ Forall2 (stored_as eng artifact_colors_columns colors_params) colors sc
    /\ db' = add_colors (add_media db1 sm) sc.
Proof.
  unfold load_all, insert_metadata, insert_media, insert_colors.
  rewrite loader_spec.
  destruct (run_statements (exec_insert_metadata eng) metadata db)
    as [db1|e] eqn:H1; [|discriminate].
  rewrite loader_spec.
  destruct (run_statements (exec_insert_media eng) media db1)
    as [db2|e] eqn:H2; [|discriminate].
  rewrite loader_spec.
  destruct (run_statements (exec_insert_colors eng) colors db2)
    as [db3|e] eqn:H3; [|discriminate].
  intros H. inversion H; subst db3; clear H.
  apply run_insert_media_stored in H2 as (sm & -> & Hsm).
  apply run_insert_colors_stored in H3 as (sc & -> & Hsc).
  now exists db1, sm, sc.
Qed.

(** X15: the three loads of one click are three transactions.  When
    [insert_media] (or, after it, [insert_colors]) fails, the click ends
    with that exception, but what the loads before it stored stays
    committed: metadata rows without their media and color rows. *)
Theorem load_all_not_atomic (eng : engine) (metadata media colors : list dict)
    (db db1 : store) (e : exn) :
  insert_metadata eng metadata db = (db1, Ok tt) ->
  (snd (insert_media eng media db1) = Raise e ->
   load_all eng metadata media colors db = (db1, Raise e))
  /\ (forall db2,
        insert_media eng media db1 = (db2, Ok tt) ->
        snd (insert_colors eng colors db2) = Raise e ->
        load_all eng metadata media colors db = (db2, Raise e)).
Proof.
  intros Hmd. unfold load_all. rewrite Hmd. split.
  - destruct (insert_media eng media db1) as [db2 r] eqn:Hme. simpl.
    intros ->. now rewrite (loader_failure_unchanged _ _ _ _ _ Hme).
  - intros db2 Hme. rewrite Hme.
    destruct (insert_colors eng colors db2) as [db3 r] eqn:Hco. simpl.
    intros ->. now rewrite (loader_failure_unchanged _ _ _ _ _ Hco).
Qed.

Lemma load_all_not_atomic_witness :
  insert_metadata plain_engine [bowl_row] empty_store = (bowl_store, Ok tt)
  /\ snd (insert_media plain_engine [bowl_media; malformed_media] bowl_store)
     = Raise BindError
  /\ load_all plain_engine [bowl_row] [bowl_media; malformed_media] [bowl_color]
       empty_store
     = (bowl_store, Raise BindError).
Proof.
  split; [reflexivity|]. split; [reflexivity|].
  exact (proj1 (load_all_not_atomic plain_engine [bowl_row]
                  [bowl_media; malformed_media] [bowl_color]
                  empty_store bowl_store BindError eq_refl) eq_refl).
Defined.

(** X16: pressing the button twice.  When the metadata rows all have
    integer ids and the three loads succeeded, loading the same three lists
    again on the resulting store succeeds, leaves the metadata table as it
    is, and appends to the media and color tables the same stored rows once
    more: every media and color row is then there twice. *)
Theorem load_all_rerun (eng : engine) (metadata media colors : list dict)
    (db db1 : store) :
  forallb has_int_id metadata = true ->
  load_all eng metadata media colors db = (db1, Ok tt) ->
  exists sm sc,
    length sm = length media
    /\ length sc = length colors
    /\ artifact_media db1 = artifact_media db ++ sm
    /\ artifact_colors db1 = artifact_colors db ++ sc
    /\ load_all eng metadata media colors db1
       = ({| artifact_metadata := artifact_metadata db1;
             artifact_media := artifact_media db ++ sm ++ sm;
             artifact_colors := artifact_colors db ++ sc ++ sc |}, Ok tt).
Proof.
  intros Hids Hload.
  apply load_all_ok_inv in Hload as (dA & sm & sc & Hmd & Hsm & Hsc & ->).
  destruct (run_insert_metadata_frame eng metadata db dA Hmd) as [Hme Hco].
  exists sm, sc. simpl. rewrite Hme, Hco.
  split; [symmetry; exact (Forall2_length _ _ _ Hsm)|].
  split; [symmetry; exact (Forall2_length _ _ _ Hsc)|].
  split; [reflexivity|]. split; [reflexivity|].
  set (db1 := add_colors (add_media dA sm) sc).
  assert (Hagain : run_statements (exec_insert_metadata eng) metadata db1 = Ok db1).
  { apply run_insert_metadata_stored.
    pose proof (run_insert_metadata_bound eng metadata db dA Hmd) as Hbound.
    apply Forall_forall. intros r Hin.
    rewrite Forall_forall in Hbound. destruct (Hbound r Hin) as [ps Hps].
    apply list_elem_of_In in Hin.
    rewrite forallb_forall in Hids. specialize (Hids r Hin).
    unfold has_int_id in Hids.
    destruct (get r "id") as [| |n| | | |] eqn:Hid; try discriminate.
    exists n, ps. repeat split; try assumption.
    exact (run_insert_metadata_present eng metadata db dA r n Hid Hin Hmd). }
  unfold load_all, insert_metadata, insert_media, insert_colors.
  rewrite loader_spec, Hagain, loader_spec.
  rewrite (run_insert_media_replay eng media sm Hsm db1), loader_spec.
  rewrite (run_insert_colors_replay eng colors sc Hsc (add_media db1 sm)).
  unfold add_colors, add_media, db1. simpl.
  now rewrite Hme, Hco, <- !app_assoc.
Qed.

Lemma load_all_rerun_witness :
  forallb has_int_id [bowl_row] = true
  /\ load_all plain_engine [bowl_row] [bowl_media] [bowl_color] empty_store
     = (add_colors (add_media bowl_store
                      [[SInteger 1; SInteger 2; SNull; SNull; SNull; SNull; SNull]])
          [[SInteger 1; SText "Red"; SNull; SNull; SReal (1 # 4); SNull]],
        Ok tt)
  /\ exists sm sc,
       length sm = length [bowl_media]
       /\ length sc = length [bowl_color]
       /\ [[SInteger 1; SInteger 2; SNull; SNull; SNull; SNull; SNull]]
          = artifact_media empty_store ++ sm
       /\ [[SInteger 1; SText "Red"; SNull; SNull; SReal (1 # 4); SNull]]
          = artifact_colors empty_store ++ sc
       /\ load_all plain_engine [bowl_row] [bowl_media] [bowl_color]
            (add_colors (add_media bowl_store
               [[SInteger 1; SInteger 2; SNull; SNull; SNull; SNull; SNull]])
               [[SInteger 1; SText "Red"; SNull; SNull; SReal (1 # 4); SNull]])
          = ({| artifact_metadata := artifact_metadata bowl_store;
                artifact_media := artifact_media empty_store ++ sm ++ sm;
                artifact_colors := artifact_colors empty_store ++ sc ++ sc |},
             Ok tt).
Proof.
  split; [reflexivity|]. split; [reflexivity|].
  exact (load_all_rerun plain_engine [bowl_row] [bowl_media] [bowl_color]
           empty_store _ eq_refl eq_refl).
Defined.

(** ** From raw records to linked rows *)

Lemma stored_head (eng : engine) (c : column) (cols : list column)
    (params : dict -> list value) (r : dict) (row : list sqlval) (n : Z)
    (vs : list value) :
  col_affinity c = AffInteger ->
  params r = VInt n :: vs ->
  stored_as eng (c :: cols) params r row ->
  head row = Some (SInteger n).
Proof.
  intros Haff Hparams (ps & Hps & ->).
  rewrite Hparams, bind_params_cons in Hps. cbn [bind_param] in Hps.
  destruct (in_int64 n); [|discriminate].
  destruct (bind_params vs) as [rest|e]; [|discriminate].
  inversion Hps; subst ps. cbn [store_row]. now rewrite Haff.
Qed.

Lemma stored_rows_reference (eng : engine) (c : column) (cols : list column)
    (params : dict -> list value) (db : store) (rows : list dict)
    (stored : list (list sqlval)) :
  col_affinity c = AffInteger ->
  (forall r, exists vs, params r = get r "objectid" :: vs) ->
  Forall (fun r => exists n, get r "objectid" = VInt n
                             /\ is_Some (artifact_metadata db !! n)) rows ->
  Forall2 (stored_as eng (c :: cols) params) rows stored ->
  Forall (references db) stored.
Proof.
  intros Haff Hparams Hrows Hstored.
  induction Hstored as [|r row rows stored Hr _ IH]; [constructor|].
  inversion Hrows as [|? ? (n & Hid & Hn) Hrest]; subst.
  constructor; [|exact (IH Hrest)].
  exists n. split; [|exact Hn].
  destruct (Hparams r) as [vs Hvs]. rewrite Hid in Hvs.
  exact (stored_head eng c cols params r row n vs Haff Hvs Hr).
Qed.

Lemma chunks_objectid (recs : list dict) (chunks : list (list dict)) :
  Forall2 record_colors recs chunks ->
  Forall (fun row => exists rec, In rec recs
                                 /\ get row "objectid" = get rec "id")
         (concat chunks).
Proof.
  induction 1 as [|rec rows recs chunks (cs & _ & Hrows) _ IH]; simpl;
    [constructor|].
  apply Forall_app. split.
  - pose proof (color_rows_objectid _ _ _ Hrows) as Hobj.
    eapply Forall_impl; [exact Hobj|]. intros row Hrow.
    exists rec. split; [now left | exact Hrow].
  - eapply Forall_impl; [exact IH|]. intros row (rec' & Hin & Hrow).
    exists rec'. split; [now right | exact Hrow].
Qed.

(** X17: the pipeline keeps the references whole.  When raw records that
    all have an integer id are transformed and the three lists loaded, the
    call appends one media row per record and one color row per color
    entry, and every one of these rows carries in its [objectid] column the
    id of a row that is then in [artifact_metadata]. *)
Theorem pipeline_rows_reference_metadata (eng : engine) (recs : list dict)
    (metadata media colors : list dict) (db db' : store) :
  transform_records recs = Ok (metadata, media, colors) ->
  forallb has_int_id recs = true ->
  load_all eng metadata media colors db = (db', Ok tt) ->
  exists sm sc,
    artifact_media db' = artifact_media db ++ sm
    /\ artifact_colors db' = artifact_colors db ++ sc
    /\ length sm = length recs
    /\ length sc = length colors
    /\ Forall (references db') sm
    /\ Forall (references db') sc.
Proof.
  intros Htr Hids Hload. unfold transform_records in Htr.
  destruct (for_each transform_record _ recs) as [st|e] eqn:Hloop;
    [|discriminate].
  unfold_result. inversion Htr; subst metadata media colors; clear Htr.
  apply transform_loop_inv in Hloop as (Hmd & Hme & chunks & Hco & Hchunks).
  simpl in Hmd, Hme, Hco. rewrite Hmd, Hme, Hco in *.
  apply load_all_ok_inv in Hload as (dA & sm & sc & Hrun & Hsm & Hsc & ->).
  destruct (run_insert_metadata_frame eng _ db dA Hrun) as [HmeA HcoA].
  assert (Hstored : Forall (fun rec => exists n,
            get rec "id" = VInt n
            /\ is_Some (artifact_metadata dA !! n)) recs).
  { apply Forall_forall. intros rec Hin. apply list_elem_of_In in Hin.
    rewrite forallb_forall in Hids. specialize (Hids rec Hin).
    unfold has_int_id in Hids.
    destruct (get rec "id") as [| |n| | | |] eqn:Hid; try discriminate.
    exists n. split; [reflexivity|].
    apply (run_insert_metadata_present eng (map metadata_row recs) db dA
             (metadata_row rec) n); [exact Hid | now apply in_map | exact Hrun]. }
  exists sm, sc. simpl. rewrite HmeA, HcoA.
  split; [reflexivity|]. split; [reflexivity|].
  split; [now rewrite <- (Forall2_length _ _ _ Hsm), length_map|].
  split; [symmetry; exact (Forall2_length _ _ _ Hsc)|].
  rewrite Forall_forall in Hstored. split.
  - eapply (stored_rows_reference eng
              {| col_name := "objectid"; col_affinity := AffInteger;
                 col_primary_key := false |}
              (tail artifact_media_columns) media_params);
      [reflexivity| | |exact Hsm].
    + intros r. eexists. reflexivity.
    + apply Forall_forall. intros r Hin. apply list_elem_of_In in Hin.
      apply in_map_iff in Hin as (rec & <- & Hin).
      apply list_elem_of_In in Hin. exact (Hstored rec Hin).
  - eapply (stored_rows_reference eng
              {| col_name := "objectid"; col_affinity := AffInteger;
                 col_primary_key := false |}
              (tail artifact_colors_columns) colors_params);
      [reflexivity| | |exact Hsc].
    + intros r. eexists. reflexivity.
    + eapply Forall_impl; [exact (chunks_objectid recs chunks Hchunks)|].
      intros row (rec & Hin & Hrow). apply list_elem_of_In in Hin.
      destruct (Hstored rec Hin) as (n & Hid & Hn).
      exists n. split; [congruence | exact Hn].
Qed.

Lemma pipeline_rows_reference_metadata_witness :
  transform_records [record_42]
    = Ok ([metadata_row record_42], [media_row record_42], record_42_colors)
  /\ forallb has_int_id [record_42] = true
  /\ exists sm sc,
       artifact_media
         (fst (load_all plain_engine [metadata_row record_42]
                 [media_row record_42] record_42_colors bowl_store))
       = artifact_media bowl_store ++ sm
       /\ artifact_colors
            (fst (load_all plain_engine [metadata_row record_42]
                    [media_row record_42] record_42_colors bowl_store))
          = artifact_colors bowl_store ++ sc
       /\ length sm = length [record_42]
       /\ length sc = length record_42_colors
       /\ Forall (references
                    (fst (load_all plain_engine [metadata_row record_42]
                            [media_row record_42] record_42_colors bowl_store)))
                 sm
       /\ Forall (references
                    (fst (load_all plain_engine [metadata_row record_42]
                            [media_row record_42] record_42_colors bowl_store)))
                 sc.
Proof.
  split; [reflexivity|]. split; [reflexivity|].
  exact (pipeline_rows_reference_metadata plain_engine [record_42] _ _ _
           bowl_store _ eq_refl eq_refl eq_refl).
Defined.

(** ** One click, in numbers *)

Lemma transform_raw_loop_inv (raw : list value) (st st' : transform_state) :
  for_each transform_raw_record st raw = Ok st' ->
  exists recs,
    raw = map VDict recs /\ for_each transform_record st recs = Ok st'.
Proof.
  revert st. induction raw as [|v raw IH]; intros st H; simpl in H.
  - exists []. now split.
  - destruct (transform_raw_record st v) as [st1|e] eqn:Hv; [|discriminate].
    destruct v; try discriminate. simpl in Hv.
    apply IH in H as (recs & -> & Hrecs).
    exists (d :: recs). split; [reflexivity|]. simpl. now rewrite Hv.
Qed.

Lemma transform_raw_lengths (raw : list value)
    (metadata media colors : list dict) :
  transform_raw raw = Ok (metadata, media, colors) ->
  length metadata = length raw /\ length media = length raw.
Proof.
  unfold transform_raw.
  destruct (for_each transform_raw_record _ raw) as [st|e] eqn:Hloop;
    [|discriminate].
  unfold_result. intros H. inversion H; subst; clear H.
  apply transform_raw_loop_inv in Hloop as (recs & -> & Hloop).
  apply transform_loop_inv in Hloop as (Hmd & Hme & _). simpl in Hmd, Hme.
  now rewrite Hmd, Hme, !length_map.
Qed.

Lemma run_insert_metadata_size (eng : engine) (rows : list dict)
    (db db' : store) :
  run_statements (exec_insert_metadata eng) rows db = Ok db' ->
  (base.size (artifact_metadata db')
   <= base.size (artifact_metadata db) + length rows)%nat.
Proof.
  unfold run_statements. revert db.
  induction rows as [|r rows IH]; intros db H; simpl in H.
  - inversion H; subst. simpl. lia.
  - destruct (exec_insert_metadata eng r db) as [db1|e] eqn:Hr; [|discriminate].
    apply IH in H.
    assert (base.size (artifact_metadata db1)
            <= S (base.size (artifact_metadata db)))%nat; [|simpl; lia].
    unfold exec_insert_metadata in Hr. unfold_result.
    destruct (bind_params _) as [[|key rest]|e]; try discriminate.
    + inversion Hr; subst. lia.
    + destruct (rowid_of _ _ key) as [rowid|e]; [|discriminate].
      destruct (artifact_metadata db !! rowid) eqn:Hrow; inversion Hr; subst.
      * lia.
      * simpl. now rewrite map_size_insert_None.
Qed.

(** X18: what one successful click adds.  The sidebar shows its four
    messages, the second one with the number [n] of records fetched, which
    is at most 2500; the media table has grown by exactly [n] rows, the
    metadata table by at most [n], and every metadata row stored before is
    still there unchanged. *)
Theorem collect_data_counts (fuel : nat) (api : endpoint) (eng : engine)
    (cls : string) (db : store) (out : collect_outcome) :
  collect_data fuel api eng cls db = Some out ->
  ended out = Ok tt ->
  exists n,
    sidebar out
    = [Info_fetching cls; Success_fetched n; Info_inserting; Success_completed]
    /\ (n <= 2500)%nat
    /\ length (artifact_media (final_store out))
       = (length (artifact_media db) + n)%nat
    /\ (base.size (artifact_metadata (final_store out))
        <= base.size (artifact_metadata db) + n)%nat
    /\ (forall k row,
          artifact_metadata db !! k = Some row ->
          artifact_metadata (final_store out) !! k = Some row).
Proof.
  unfold collect_data, fetch_artifacts_by_classification.
  destruct (fetch_loop _ _ _ _ _ _) as [[s r]|]; [|discriminate].
  cbn [returned diagnostics].
  destruct r as [[]|e]; [|intros H; inversion H; subst; discriminate].
  set (raw := py_slice_to (records s) 2500).
  assert (Hraw : (length raw <= 2500)%nat).
  { unfold raw. rewrite py_slice_to_nonneg by lia. rewrite length_take. lia. }
  destruct (transform_raw raw) as [[[metadata media] colors]|e] eqn:Htr;
    [|intros H; inversion H; subst; discriminate].
  destruct (transform_raw_lengths raw metadata media colors Htr) as [Hmd Hme].
  destruct (load_all eng metadata media colors db) as [db' [[]|e]] eqn:Hload;
    [|intros H; inversion H; subst; discriminate].
  intros H _. inversion H; subst out; clear H. simpl.
  apply load_all_ok_inv in Hload as (dA & sm & sc & Hrun & Hsm & Hsc & ->).
  exists (length raw). split; [reflexivity|]. split; [exact Hraw|].
  destruct (run_insert_metadata_frame eng metadata db dA Hrun) as [HmeA _].
  simpl. split; [|split].
  - rewrite length_app, HmeA, <- (Forall2_length _ _ _ Hsm), Hme. reflexivity.
  - rewrite <- Hmd. exact (run_insert_metadata_size eng metadata db dA Hrun).
  - intros k row Hk.
    exact (run_insert_metadata_preserves eng metadata db dA k row Hrun Hk).
Qed.

Lemma collect_data_counts_witness :
  exists out,
    collect_data 2 one_record_api plain_engine "Vessels" bowl_store = Some out
    /\ ended out = Ok tt
    /\ exists n,
         sidebar out
         = [Info_fetching "Vessels"; Success_fetched n; Info_inserting;
            Success_completed]
         /\ (n <= 2500)%nat
         /\ length (artifact_media (final_store out))
            = (length (artifact_media bowl_store) + n)%nat
         /\ (base.size (artifact_metadata (final_store out))
             <= base.size (artifact_metadata bowl_store) + n)%nat
         /\ (forall k row,
               artifact_metadata bowl_store !! k = Some row ->
               artifact_metadata (final_store out) !! k = Some row).
Proof.
  destruct (collect_data 2 one_record_api plain_engine "Vessels" bowl_store)
    as [out|] eqn:Hrun; [|discriminate Hrun].
  assert (Hended : ended out = Ok tt).
  { vm_compute in Hrun. inversion Hrun. reflexivity. }
  exists out. split; [reflexivity|]. split; [exact Hended|].
  exact (collect_data_counts 2 one_record_api plain_engine "Vessels"
           bowl_store out Hrun Hended).
Defined.

(** ** Remote Fetcher: a page without pagination data *)

(** X20: an answer with status 200 that is an object without [info] and
    without [records], such as an error object, is read as a last page with
    no records: the call ends there and returns what the earlier pages
    brought, with no diagnostic and no exception. *)
Theorem fetch_stops_at_page_without_info (api : endpoint) (cls : string)
    (sz max_records : Z) (pages : list (list value)) (d : dict) (fuel : nat) :
  continues api cls sz 1 pages ->
  Z.of_nat (length (concat pages)) < max_records ->
  status_code (api (page_params cls sz (1 + Z.of_nat (length pages)))) = 200 ->
  body (api (page_params cls sz (1 + Z.of_nat (length pages)))) = Some (VDict d) ->
  dict_lookup d "records" = None ->
  dict_lookup d "info" = None ->
  (length pages < fuel)%nat ->
  fetch_artifacts_by_classification fuel api cls sz max_records
  = Some {| returned := Ok (concat pages);
            issued := page_requests cls sz 1 (S (length pages));
            diagnostics := [] |}.
Proof.
  intros Hpages Hlen Hst Hbody Hrecs Hinfo Hfuel.
  unfold fetch_artifacts_by_classification.
  replace fuel with (length pages + S (fuel - S (length pages)))%nat by lia.
  rewrite (fetch_loop_continues _ _ _ _ _ _ Hpages); [|reflexivity|exact Hlen].
  rewrite (fetch_loop_last _ _ _ _ _ _ []); [|exact Hlen|].
  - rewrite page_requests_snoc. cbn [records requests_sent st_errors advance].
    rewrite app_nil_r, py_slice_to_nonneg by lia.
    change (records fetch_init ++ concat pages) with (concat pages).
    rewrite take_ge by lia. reflexivity.
  - split; [exact Hst|]. exists (VDict d), VNone. unfold json. simpl.
    rewrite Hbody. unfold page_records, page_next, py_get, get_default.
    rewrite Hrecs, Hinfo. repeat split.
Qed.

Lemma fetch_stops_at_page_without_info_witness :
  continues error_object_api "Coins" 2 1 [[coin 1; coin 2]]
  /\ fetch_artifacts_by_classification 2 error_object_api "Coins" 2 250
     = Some {| returned := Ok [coin 1; coin 2];
               issued := [page_params "Coins" 2 1; page_params "Coins" 2 2];
               diagnostics := [] |}.
Proof.
  assert (Hpages : continues error_object_api "Coins" 2 1 [[coin 1; coin 2]]).
  { constructor; [|constructor].
    split; [reflexivity|]. do 2 eexists. repeat split; reflexivity. }
  split; [exact Hpages|].
  refine (fetch_stops_at_page_without_info error_object_api "Coins" 2 250
            [[coin 1; coin 2]] [("error", VStr "Too many requests")] 2
            Hpages _ eq_refl eq_refl eq_refl eq_refl _); simpl; lia.
Defined.

(** ** From a raw record to a query result *)

Lemma metadata_row_params (rec : dict) :
  metadata_params (metadata_row rec) = metadata_params rec.
Proof. reflexivity. Qed.

Lemma exec_insert_metadata_typed (eng : engine) (r : dict) (db : store) (n : Z) :
  get r "id" = VInt n ->
  all_fit artifact_metadata_columns (metadata_params r) = true ->
  artifact_metadata db !! n = None ->
  exists rest,
    exec_insert_metadata eng r db = Ok (put_metadata db n rest)
    /\ map sql_to_py (SInteger n :: rest) = metadata_params r.
Proof.
  intros Hid Hfit Hfresh.
  destruct (bind_params_fit eng _ _ Hfit) as (ps & Hps & Hrow & Hpy).
  destruct (metadata_params_bind_inv r n ps Hid Hps) as [rest ->].
  pose proof (store_row_tail eng _ (tail artifact_metadata_columns) _ rest Hrow)
    as Hrest.
  exists rest. split; [|exact Hpy].
  now rewrite (exec_insert_metadata_key eng r db n rest Hps), Hfresh, Hrest.
Qed.

(** X21: from the endpoint's record to the query result.  A raw record
    with an integer id not yet stored, metadata fields of the types the
    table declares and colors that transform, once transformed and its
    metadata row loaded, is read back by
    [SELECT * FROM artifact_metadata WHERE id = n] as one row whose twelve
    values are the record's own [id], [title], ..., [accessionmethod]: a
    field the record lacks comes back as NULL. *)
Theorem raw_record_round_trip (eng : engine) (rec : dict) (db : store) (n : Z) :
  get rec "id" = VInt n ->
  metadata_row_typed rec = true ->
  record_error rec = None ->
  artifact_metadata db !! n = None ->
  exists metadata media colors db' row,
    transform_records [rec] = Ok (metadata, media, colors)
    /\ insert_metadata eng metadata db = (db', Ok tt)
    /\ run_query (SelectMetadataById n) db' = [row]
    /\ map sql_to_py row
       = [ get rec "id"; get rec "title"; get rec "culture"; get rec "period";
           get rec "century"; get rec "medium"; get rec "dimensions";
           get rec "description"; get rec "department";
           get rec "classification"; get rec "accessionyear";
           get rec "accessionmethod" ].
Proof.
  intros Hid Htyped Hcolors Hfresh.
  pose proof (transform_record_error empty_state rec) as Hrec.
  rewrite Hcolors in Hrec. destruct Hrec as [st Hst].
  assert (Hloop : for_each transform_record empty_state [rec] = Ok st)
    by (simpl; now rewrite Hst).
  pose proof (transform_loop_inv [rec] empty_state st Hloop) as (Hmd & _).
  simpl in Hmd.
  unfold metadata_row_typed in Htyped. rewrite Hid in Htyped.
  destruct (exec_insert_metadata_typed eng (metadata_row rec) db n)
    as (rest & Hexec & Hpy); [exact Hid | exact Htyped | exact Hfresh |].
  exists (metadata_list st), (media_list st), (colors_list st),
    (put_metadata db n rest), (SInteger n :: rest).
  split; [unfold transform_records; fold empty_state; now rewrite Hloop|].
  rewrite Hmd, insert_metadata_spec. unfold run_statements. cbn [for_each].
  rewrite Hexec. split; [reflexivity|]. split.
  - simpl. now rewrite lookup_insert_eq.
  - exact Hpy.
Qed.

Lemma raw_record_round_trip_witness :
  get jug_row "id" = VInt 3
  /\ metadata_row_typed jug_row = true
  /\ record_error jug_row = None
  /\ artifact_metadata bowl_store !! 3 = None
  /\ exists metadata media colors db' row,
       transform_records [jug_row] = Ok (metadata, media, colors)
       /\ insert_metadata plain_engine metadata bowl_store = (db', Ok tt)
       /\ run_query (SelectMetadataById 3) db' = [row]
       /\ map sql_to_py row
          = [ VInt 3; VStr "Jug"; VStr "Greek"; VNone;
              VStr "5th century BCE"; VStr "Terracotta"; VStr "12 cm"; VNone;
              VStr "Ancient Art"; VStr "Vessels"; VInt 1925; VStr "Gift" ].
Proof.
  split; [reflexivity|]. split; [reflexivity|]. split; [reflexivity|].
  split; [reflexivity|].
  exact (raw_record_round_trip plain_engine jug_row bowl_store 3
           eq_refl eq_refl eq_refl eq_refl).
Defined.
